(** * Onboarding flow engine of lunaxcode-admin

    Shallow embedding of [app/services/onboarding_services.py] (the step
    catalog, progress tracker, analytics aggregator and flow orchestrator),
    together with the parts of [app/services/postgres_base.py] and the
    schemas of [app/models] that decide what a row looks like after an
    update.

    Modelling conventions.
    - Timestamps are whole seconds ([Z]); every [datetime.utcnow()] inside one
      service call reads the same clock value [now].
    - Database tables are lists of rows in insertion order; a query
      [ORDER BY step_number] is a stable sort on [step_number].
    - [scalar_one_or_none] yields [None], one row, or raises when several
      rows match.
    - [PostgresBaseService.update] applies the update schema with
      [exclude_unset=True, exclude_none=True]: a field whose new value is
      [None] is left as it was.  The ORM emits an UPDATE only when some
      column changes value, so [updated_at] ([onupdate=func.now()]) moves
      to [now] only then.
    - Every [update]/[create] commits, so writes done before an exception are
      kept: the monad threads the store through errors.
    - The step queries filtered on the service type use
      [service_types.contains([value])] on a plain [sqlalchemy.JSON] column;
      SQLAlchemy renders it as [LIKE], for which PostgreSQL has no [json]
      operator, so executing such a query raises [ProgrammingError] whatever
      the tables hold. *)

From Stdlib Require Import List ZArith String Bool Lia Permutation Sorted.
Import ListNotations.

Open Scope Z_scope.

(** ** Enumerations ([app/models/database.py]) *)

Module ServiceType.
Inductive t := LANDING_PAGE | WEB_APP | MOBILE_APP.
(** [ServiceType.value] *)
Definition value (s : t) : string :=
  match s with
  | LANDING_PAGE => "landing_page"
  | WEB_APP => "web_app"
  | MOBILE_APP => "mobile_app"
  end.
End ServiceType.

Module StepName.
Inductive t :=
  SERVICE_SELECTION | BASIC_INFO | SERVICE_REQUIREMENTS | REVIEW | CONFIRMATION.
Definition eqb (a b : t) : bool :=
  match a, b with
  | SERVICE_SELECTION, SERVICE_SELECTION | BASIC_INFO, BASIC_INFO
  | SERVICE_REQUIREMENTS, SERVICE_REQUIREMENTS | REVIEW, REVIEW
  | CONFIRMATION, CONFIRMATION => true
  | _, _ => false
  end.
End StepName.

Module StepStatus.
Inductive t := PENDING | IN_PROGRESS | COMPLETED | SKIPPED | ERROR.
Definition eqb (a b : t) : bool :=
  match a, b with
  | PENDING, PENDING | IN_PROGRESS, IN_PROGRESS | COMPLETED, COMPLETED
  | SKIPPED, SKIPPED | ERROR, ERROR => true
  | _, _ => false
  end.
End StepStatus.

Module ConversionStatus.
Inductive t := COMPLETED | ABANDONED | IN_PROGRESS.
Definition eqb (a b : t) : bool :=
  match a, b with
  | COMPLETED, COMPLETED | ABANDONED, ABANDONED | IN_PROGRESS, IN_PROGRESS => true
  | _, _ => false
  end.
End ConversionStatus.

(** Equality of nullable column values. *)
Definition option_eqb {A} (eqb : A -> A -> bool) (x y : option A) : bool :=
  match x, y with
  | Some a, Some b => eqb a b
  | None, None => true
  | _, _ => false
  end.

(** A JSON object ([Dict[str, Any]]) as an association list in key order. *)
Definition dict := list (string * string).

(** ** Rows *)

(** [OnboardingStep] (configuration, read only for the engine). *)
Module Step.
Record t := mk {
  id : string;
  step_number : Z;
  step_name : StepName.t;
  required_fields : option (list string);
  skip_conditions : option dict;
  service_types : option (list string);
  is_active : bool
}.
End Step.

(** [OnboardingStepProgress]. *)
Module StepProgress.
Record t := mk {
  submission_id : option string;
  step_id : string;
  step_number : Z;
  step_name : StepName.t;
  status : StepStatus.t;
  step_data : option dict;
  validation_errors : option (list dict);
  user_input : option dict;
  started_at : option Z;
  completed_at : option Z;
  time_spent : option Z;
  attempt_count : Z;
  navigation_history : option (list dict);
  exited_at : option Z
}.
End StepProgress.

(** [OnboardingStepProgressUpdate]: every field optional. *)
Module ProgressUpdate.
Record t := mk {
  status : option StepStatus.t;
  step_data : option dict;
  validation_errors : option (list dict);
  user_input : option dict;
  started_at : option Z;
  completed_at : option Z;
  time_spent : option Z;
  attempt_count : option Z;
  navigation_history : option (list dict);
  exited_at : option Z
}.
Definition empty : t := mk None None None None None None None None None None.
End ProgressUpdate.

(** [OnboardingAnalytics]; [created_at]/[updated_at] carry the
    [server_default=func.now()] of the base model, so they are always set. *)
Module Analytics.
Record t := mk {
  session_id : string;
  total_steps : Z;
  completed_steps : Z;
  skipped_steps : Z;
  error_steps : Z;
  total_time_spent : Z;
  average_step_time : Z;
  fastest_step : option StepName.t;
  slowest_step : option StepName.t;
  completion_rate : Z;
  conversion_status : ConversionStatus.t;
  back_navigation_count : Z;
  error_count : Z;
  created_at : Z;
  updated_at : Z
}.
End Analytics.

(** The three tables the engine touches. *)
Record Store := mkStore {
  steps : list Step.t;
  progress : list StepProgress.t;
  analytics : list Analytics.t
}.

(** ** A state-and-error monad for the service calls *)

Inductive Error :=
| NotFoundError
| ValidationException
| MultipleResultsFound
| ZeroDivisionError
| ProgrammingError.


Inductive result (A : Type) :=
| Ok (a : A)
| Err (e : Error).
Arguments Ok {A} a.
Arguments Err {A} e.

Definition M (A : Type) := Store -> Store * result A.

Definition ret {A} (a : A) : M A := fun s => (s, Ok a).
Definition raise {A} (e : Error) : M A := fun s => (s, Err e).
Definition bind {A B} (m : M A) (k : A -> M B) : M B :=
  fun s => match m s with
           | (s', Ok a) => k a s'
           | (s', Err e) => (s', Err e)
           end.
Definition gets {A} (f : Store -> A) : M A := fun s => (s, Ok (f s)).
Definition modify (f : Store -> Store) : M unit := fun s => (f s, Ok tt).

Notation "x <- m ;; k" := (bind m (fun x => k))
  (at level 61, m at next level, right associativity).

(** [scalar_one_or_none] over the rows matching a query. *)
Definition scalar_one_or_none {A} (rows : list A) : M (option A) :=
  match rows with
  | [] => ret None
  | [r] => ret (Some r)
  | _ => raise MultipleResultsFound
  end.

(** ** Ordering: [ORDER BY step_number] as a stable insertion sort *)

Section SortBy.
Context {A : Type} (key : A -> Z).

Fixpoint insert_by (x : A) (l : list A) : list A :=
  match l with
  | [] => [x]
  | y :: r => if key x <=? key y then x :: l else y :: insert_by x r
  end.

Fixpoint sort_by (l : list A) : list A :=
  match l with
  | [] => []
  | x :: r => insert_by x (sort_by r)
  end.
End SortBy.

(** ** StepCatalog: [OnboardingStepsService] *)

(** [get_by_id] on the primary key. *)
Definition get_step_by_id (cat : list Step.t) (id : string) : option Step.t :=
  find (fun s => String.eqb (Step.id s) id) cat.

(** [session.execute] of a step query whose [WHERE] clause holds
    [or_(service_types.contains([service_type.value]), service_types.is_(None))].
    [service_types] is declared [mapped_column(JSON, nullable=True)] with the
    generic [sqlalchemy.JSON] type, whose [contains] is the default string
    operator: [service_types LIKE '%' || :param || '%'].  PostgreSQL has no
    [LIKE] operator for [json] ([operator does not exist: json ~~ text]) and
    rejects the statement before reading a row, so the driver raises
    [ProgrammingError]; the other conditions, the ordering and the [limit]
    of the query never take effect. *)
Definition execute_service_type_query {A} (service_type : ServiceType.t) : M A :=
  raise ProgrammingError.

(** [get_steps_for_service_type] *)
Definition get_steps_for_service_type (service_type : ServiceType.t) : M (list Step.t) :=
  execute_service_type_query service_type.

(** [get_next_step]: [get_by_id] of the current step, then the query for
    the first step numbered above it. *)
Definition get_next_step (current_step_id : string) (service_type : ServiceType.t)
  : M (option Step.t) :=
  current_step <- gets (fun s => get_step_by_id (steps s) current_step_id) ;;
  match current_step with
  | None => ret None
  | Some _ => execute_service_type_query service_type
  end.

(** [get_previous_step]: [get_by_id] of the current step, then the query
    for the last step numbered below it. *)
Definition get_previous_step (current_step_id : string) (service_type : ServiceType.t)
  : M (option Step.t) :=
  current_step <- gets (fun s => get_step_by_id (steps s) current_step_id) ;;
  match current_step with
  | None => ret None
  | Some _ => execute_service_type_query service_type
  end.

(** *** The applicable steps as the specification describes them

    Not code of the repository: [get_applicable_steps] of the specification
    (the active steps whose [service_types] is empty or absent or contains
    the service type, ascending by [step_number]) and the next step it
    determines.  The claims about the step catalog compare the code with
    these. *)
Definition spec_applicable (service_type : ServiceType.t) (s : Step.t) : bool :=
  Step.is_active s &&
  match Step.service_types s with
  | None | Some [] => true
  | Some l => existsb (String.eqb (ServiceType.value service_type)) l
  end.

Definition spec_applicable_steps (cat : list Step.t) (service_type : ServiceType.t)
  : list Step.t :=
  sort_by Step.step_number (filter (spec_applicable service_type) cat).

Definition spec_next_step (cat : list Step.t) (current_step_id : string)
  (service_type : ServiceType.t) : option Step.t :=
  match get_step_by_id cat current_step_id with
  | None => None
  | Some cur =>
      find (fun s => Step.step_number cur <? Step.step_number s)
           (spec_applicable_steps cat service_type)
  end.

(** ** ProgressTracker: [OnboardingProgressService] *)

Definition in_session (session_id : string) (p : StepProgress.t) : bool :=
  match StepProgress.submission_id p with
  | Some x => String.eqb x session_id
  | None => false
  end.

Definition row_key (session_id step_id : string) (p : StepProgress.t) : bool :=
  in_session session_id p && String.eqb (StepProgress.step_id p) step_id.

(** [get_session_progress] *)
Definition get_session_progress_pure (tbl : list StepProgress.t) (session_id : string)
  : list StepProgress.t :=
  sort_by StepProgress.step_number (filter (in_session session_id) tbl).

Definition get_session_progress (session_id : string) : M (list StepProgress.t) :=
  gets (fun s => get_session_progress_pure (progress s) session_id).

(** [get_step_progress] *)
Definition get_step_progress (session_id step_id : string)
  : M (option StepProgress.t) :=
  fun s => scalar_one_or_none (filter (row_key session_id step_id) (progress s)) s.

Definition isSome {A} (o : option A) : bool :=
  match o with Some _ => true | None => false end.

Definition pick {A} (n : option A) (o : A) : A :=
  match n with Some v => v | None => o end.

(** [PostgresBaseService.update] with [exclude_none=True]. *)
Definition apply_progress_update (u : ProgressUpdate.t) (p : StepProgress.t)
  : StepProgress.t :=
  StepProgress.mk
    (StepProgress.submission_id p) (StepProgress.step_id p)
    (StepProgress.step_number p) (StepProgress.step_name p)
    (pick (ProgressUpdate.status u) (StepProgress.status p))
    (match ProgressUpdate.step_data u with Some d => Some d | None => StepProgress.step_data p end)
    (match ProgressUpdate.validation_errors u with
     | Some d => Some d | None => StepProgress.validation_errors p end)
    (match ProgressUpdate.user_input u with Some d => Some d | None => StepProgress.user_input p end)
    (match ProgressUpdate.started_at u with Some d => Some d | None => StepProgress.started_at p end)
    (match ProgressUpdate.completed_at u with
     | Some d => Some d | None => StepProgress.completed_at p end)
    (match ProgressUpdate.time_spent u with Some d => Some d | None => StepProgress.time_spent p end)
    (pick (ProgressUpdate.attempt_count u) (StepProgress.attempt_count p))
    (match ProgressUpdate.navigation_history u with
     | Some d => Some d | None => StepProgress.navigation_history p end)
    (match ProgressUpdate.exited_at u with Some d => Some d | None => StepProgress.exited_at p end).

(** The row found by [get_step_progress] is the only one with its key, so
    updating it by primary key is updating every row with that key. *)
Definition write_progress (session_id step_id : string) (u : ProgressUpdate.t) : M unit :=
  modify (fun s => mkStore (steps s)
    (map (fun p => if row_key session_id step_id p then apply_progress_update u p else p)
         (progress s))
    (analytics s)).

(** [update_step_status(session_id, step_id, status, **kwargs)]:
    [update_data = {"status": status, **kwargs}], then the timestamp of the
    phase being entered is added only if the row does not have one yet. *)
Definition update_step_status (session_id step_id : string) (status : StepStatus.t)
  (kwargs : ProgressUpdate.t) (now : Z) : M StepProgress.t :=
  o <- get_step_progress session_id step_id ;;
  match o with
  | None => raise NotFoundError
  | Some p =>
      let set_start := StepStatus.eqb status StepStatus.IN_PROGRESS
                       && negb (isSome (StepProgress.started_at p)) in
      let set_complete := negb set_start
                          && StepStatus.eqb status StepStatus.COMPLETED
                          && negb (isSome (StepProgress.completed_at p)) in
      let set_exit := negb set_start && negb set_complete
                      && StepStatus.eqb status StepStatus.ERROR
                      && negb (isSome (StepProgress.exited_at p)) in
      let u := ProgressUpdate.mk
                 (Some status)
                 (ProgressUpdate.step_data kwargs)
                 (ProgressUpdate.validation_errors kwargs)
                 (ProgressUpdate.user_input kwargs)
                 (if set_start then Some now else ProgressUpdate.started_at kwargs)
                 (if set_complete then Some now else ProgressUpdate.completed_at kwargs)
                 (ProgressUpdate.time_spent kwargs)
                 (ProgressUpdate.attempt_count kwargs)
                 (ProgressUpdate.navigation_history kwargs)
                 (if set_exit then Some now else ProgressUpdate.exited_at kwargs) in
      _ <- write_progress session_id step_id u ;;
      ret (apply_progress_update u p)
  end.

(** [calculate_time_spent]; any exception is caught and gives [0].  The
    row's timestamps come back from [DateTime(timezone=True)] columns, so
    they are timezone-aware: with neither [completed_at] nor [exited_at] the
    end time is the naive [datetime.utcnow()], the subtraction raises
    [TypeError], and the result is [0]. *)
Definition calculate_time_spent (session_id step_id : string) (now : Z) : M Z :=
  fun s =>
    match get_step_progress session_id step_id s with
    | (_, Ok (Some p)) =>
        match StepProgress.started_at p with
        | None => (s, Ok 0)
        | Some st =>
            match StepProgress.completed_at p with
            | Some c => (s, Ok (c - st))
            | None => match StepProgress.exited_at p with
                      | Some e => (s, Ok (e - st))
                      | None => (s, Ok 0)
                      end
            end
        end
    | _ => (s, Ok 0)
    end.

(** ** AnalyticsAggregator: [OnboardingAnalyticsService] *)

Definition get_by_session_id (session_id : string) : M (option Analytics.t) :=
  fun s => scalar_one_or_none
             (filter (fun a => String.eqb (Analytics.session_id a) session_id)
                     (analytics s)) s.

Definition has_status (st : StepStatus.t) (p : StepProgress.t) : bool :=
  StepStatus.eqb (StepProgress.status p) st.

(** [len([p for p in progress_records if p.status == st])] *)
Definition count_status (st : StepStatus.t) (recs : list StepProgress.t) : Z :=
  Z.of_nat (List.length (filter (has_status st) recs)).

(** [sum(p.time_spent or 0 for p in progress_records)] *)
Definition total_time (recs : list StepProgress.t) : Z :=
  fold_right (fun p acc => pick (StepProgress.time_spent p) 0 + acc) 0 recs.

(** Python truthiness of [p.time_spent]: [None] and [0] are false. *)
Definition time_truthy (p : StepProgress.t) : bool :=
  match StepProgress.time_spent p with
  | Some t => negb (t =? 0)
  | None => false
  end.

Definition time_key (p : StepProgress.t) : Z := pick (StepProgress.time_spent p) 0.

(** [[p for p in progress_records if p.status == COMPLETED and p.time_spent]] *)
Definition completed_progress (recs : list StepProgress.t) : list StepProgress.t :=
  filter (fun p => has_status StepStatus.COMPLETED p && time_truthy p) recs.

(** Python's [min]/[max] with a key: the first element reaching the extremum. *)
Section Extremum.
Context {A : Type} (key : A -> Z).

Fixpoint min_from (best : A) (l : list A) : A :=
  match l with
  | [] => best
  | x :: r => min_from (if key x <? key best then x else best) r
  end.

Fixpoint max_from (best : A) (l : list A) : A :=
  match l with
  | [] => best
  | x :: r => max_from (if key best <? key x then x else best) r
  end.

Definition py_min (l : list A) : option A :=
  match l with [] => None | x :: r => Some (min_from x r) end.

Definition py_max (l : list A) : option A :=
  match l with [] => None | x :: r => Some (max_from x r) end.
End Extremum.

Definition sum_Z {A} (f : A -> Z) (l : list A) : Z :=
  fold_right (fun x acc => f x + acc) 0 l.

Definition length_Z {A} (l : list A) : Z := Z.of_nat (List.length l).

Definition keep_if_none {A} (n o : option A) : option A :=
  match n with Some v => Some v | None => o end.

(** The row written by [update_analytics_from_progress]: the metrics it
    computes, applied with [exclude_none=True]; [updated_at] becomes [now]
    only when some column changes value (otherwise no UPDATE is emitted). *)
Definition analytics_from_progress (a : Analytics.t) (recs : list StepProgress.t)
  (now : Z) : Analytics.t :=
  let completed_steps := count_status StepStatus.COMPLETED recs in
  let skipped_steps := count_status StepStatus.SKIPPED recs in
  let error_steps := count_status StepStatus.ERROR recs in
  let total := total_time recs in
  let avg_time := if 0 <? completed_steps then total / Z.max completed_steps 1 else 0 in
  let completion_rate :=
    if 0 <? Analytics.total_steps a
    then (completed_steps * 100) / Analytics.total_steps a else 0 in
  let cp := completed_progress recs in
  let fastest := option_map StepProgress.step_name (py_min time_key cp) in
  let slowest := option_map StepProgress.step_name (py_max time_key cp) in
  let conversion_status :=
    if 100 <=? completion_rate then ConversionStatus.COMPLETED
    else if existsb (has_status StepStatus.ERROR) recs then ConversionStatus.ABANDONED
    else ConversionStatus.IN_PROGRESS in
  let fastest' := keep_if_none fastest (Analytics.fastest_step a) in
  let slowest' := keep_if_none slowest (Analytics.slowest_step a) in
  let back := sum_Z (fun p => length_Z (pick (StepProgress.navigation_history p) [])) recs in
  let errors := sum_Z (fun p => StepProgress.attempt_count p - 1) recs in
  let unchanged :=
    (completed_steps =? Analytics.completed_steps a) &&
    (skipped_steps =? Analytics.skipped_steps a) &&
    (error_steps =? Analytics.error_steps a) &&
    (total =? Analytics.total_time_spent a) &&
    (avg_time =? Analytics.average_step_time a) &&
    option_eqb StepName.eqb fastest' (Analytics.fastest_step a) &&
    option_eqb StepName.eqb slowest' (Analytics.slowest_step a) &&
    (completion_rate =? Analytics.completion_rate a) &&
    ConversionStatus.eqb conversion_status (Analytics.conversion_status a) &&
    (back =? Analytics.back_navigation_count a) &&
    (errors =? Analytics.error_count a) in
  Analytics.mk
    (Analytics.session_id a) (Analytics.total_steps a)
    completed_steps skipped_steps error_steps total avg_time
    fastest' slowest' completion_rate conversion_status back errors
    (Analytics.created_at a)
    (if unchanged then Analytics.updated_at a else now).

(** The row [a] with [updated_at] replaced by [t]. *)
Definition with_updated_at (a : Analytics.t) (t : Z) : Analytics.t :=
  Analytics.mk (Analytics.session_id a) (Analytics.total_steps a)
    (Analytics.completed_steps a) (Analytics.skipped_steps a) (Analytics.error_steps a)
    (Analytics.total_time_spent a) (Analytics.average_step_time a)
    (Analytics.fastest_step a) (Analytics.slowest_step a) (Analytics.completion_rate a)
    (Analytics.conversion_status a) (Analytics.back_navigation_count a)
    (Analytics.error_count a) (Analytics.created_at a) t.

Definition write_analytics (session_id : string) (a' : Analytics.t) : M unit :=
  modify (fun s => mkStore (steps s) (progress s)
    (map (fun a => if String.eqb (Analytics.session_id a) session_id then a' else a)
         (analytics s))).

(** [update_analytics_from_progress] *)
Definition update_analytics_from_progress (session_id : string)
  (progress_records : list StepProgress.t) (now : Z) : M Analytics.t :=
  o <- get_by_session_id session_id ;;
  match o with
  | None => raise NotFoundError
  | Some a =>
      let a' := analytics_from_progress a progress_records now in
      _ <- write_analytics session_id a' ;;
      ret a'
  end.

(** ** FlowSession: [OnboardingFlowService] *)

(** The new [OnboardingStepProgressCreate] row of [start_flow] for a step. *)
Definition initial_progress (session_id : string) (now : Z) (step : Step.t)
  : StepProgress.t :=
  StepProgress.mk (Some session_id) (Step.id step) (Step.step_number step)
    (Step.step_name step)
    (if 1 <? Step.step_number step then StepStatus.PENDING else StepStatus.IN_PROGRESS)
    None None None
    (if Step.step_number step =? 1 then Some now else None)
    None None 1 None None.

(** The new [OnboardingAnalyticsCreate] row of [start_flow]. *)
Definition initial_analytics (session_id : string) (total : Z) (now : Z) : Analytics.t :=
  Analytics.mk session_id total 0 0 0 0 0 None None 0
    ConversionStatus.IN_PROGRESS 0 0 now now.

(** [create] appends the new rows to their table. *)
Definition create_analytics (a : Analytics.t) : M unit :=
  modify (fun s => mkStore (steps s) (progress s) (analytics s ++ [a])).

Definition create_progress (ps : list StepProgress.t) : M unit :=
  modify (fun s => mkStore (steps s) (progress s ++ ps) (analytics s)).

Module FlowStart.
Record t := mk {
  session_id : string;
  total_steps : Z;
  current_step_number : Z;
  progress : Z;
  current_step : Step.t
}.
End FlowStart.

(** [start_flow]; [session_id] is the fresh [uuid4] drawn by the call. *)
Definition start_flow (session_id : string) (service_type : ServiceType.t) (now : Z)
  : M FlowStart.t :=
  steps <- get_steps_for_service_type service_type ;;
  match steps with
  | [] => raise ValidationException
  | first :: _ =>
      _ <- create_analytics (initial_analytics session_id (length_Z steps) now) ;;
      _ <- create_progress (map (initial_progress session_id now) steps) ;;
      ret (FlowStart.mk session_id (length_Z steps) 1 0 first)
  end.

Module SubmitStepDataRequest.
Record t := mk {
  session_id : string;
  step_id : string;
  step_data : dict;
  time_spent : option Z
}.
End SubmitStepDataRequest.

Module SubmitResult.
Record t := mk {
  is_valid : bool;
  errors : list dict;
  next_step : option Step.t;
  progress_percentage : Z;
  can_proceed : bool
}.
End SubmitResult.

(** [submit_step_data] *)
Definition submit_step_data (req : SubmitStepDataRequest.t) (now : Z)
  : M SubmitResult.t :=
  let sid := SubmitStepDataRequest.session_id req in
  let stid := SubmitStepDataRequest.step_id req in
  o <- get_step_progress sid stid ;;
  match o with
  | None => raise NotFoundError
  | Some _ =>
      (* [ValidationResult(is_valid=True, errors=[], warnings=[])] *)
      (* [request.time_spent or calculate_time_spent(...)] *)
      time_spent <- match SubmitStepDataRequest.time_spent req with
                    | Some t => if t =? 0 then calculate_time_spent sid stid now else ret t
                    | None => calculate_time_spent sid stid now
                    end ;;
      _ <- update_step_status sid stid StepStatus.COMPLETED
             (ProgressUpdate.mk None
                (Some (SubmitStepDataRequest.step_data req)) None
                (Some (SubmitStepDataRequest.step_data req)) None
                (Some now) (Some time_spent) None None None) now ;;
      (* [current_step = get_by_id(request.step_id)], not used afterwards *)
      _ <- gets (fun s => get_step_by_id (steps s) stid) ;;
      (* [get_next_step(request.step_id, ServiceType.LANDING_PAGE)] *)
      next_step <- get_next_step stid ServiceType.LANDING_PAGE ;;
      _ <- match next_step with
           | Some ns =>
               _ <- update_step_status sid (Step.id ns) StepStatus.IN_PROGRESS
                      (ProgressUpdate.mk None None None None (Some now)
                         None None None None None) now ;;
               ret tt
           | None => ret tt
           end ;;
      all_progress <- get_session_progress sid ;;
      _ <- update_analytics_from_progress sid all_progress now ;;
      let completed_count := count_status StepStatus.COMPLETED all_progress in
      let n := length_Z all_progress in
      if n =? 0 then raise ZeroDivisionError
      else ret (SubmitResult.mk true [] next_step ((completed_count * 100) / n)
                  (isSome next_step))
  end.

(** [dict.update]: existing keys are overwritten in place, new keys appended. *)
Fixpoint dict_set (d : dict) (k v : string) : dict :=
  match d with
  | [] => [(k, v)]
  | (k', v') :: r => if String.eqb k k' then (k, v) :: r else (k', v') :: dict_set r k v
  end.

Definition dict_update (d e : dict) : dict :=
  fold_left (fun acc kv => dict_set acc (fst kv) (snd kv)) e d.

(** [d.get(k)] *)
Fixpoint dict_get (d : dict) (k : string) : option string :=
  match d with
  | [] => None
  | (k', v) :: r => if String.eqb k k' then Some v else dict_get r k
  end.

Module FlowState.
Record t := mk {
  session_id : string;
  current_step : Z;
  current_step_name : StepName.t;
  step_history : list string;
  form_data : dict;
  service_type : ServiceType.t;
  is_complete : bool;
  started_at : Z;
  last_active_at : Z
}.
End FlowState.

Definition conversion_completed (c : ConversionStatus.t) : bool :=
  match c with ConversionStatus.COMPLETED => true | _ => false end.

(** [progress_records[-1] if progress_records else None] *)
Fixpoint last_opt {A} (l : list A) : option A :=
  match l with
  | [] => None
  | [x] => Some x
  | _ :: r => last_opt r
  end.

(** [get_flow_state] *)
Definition get_flow_state (session_id : string) : M (option FlowState.t) :=
  o <- get_by_session_id session_id ;;
  match o with
  | None => ret None
  | Some a =>
      progress_records <- get_session_progress session_id ;;
      let current_progress :=
        match find (has_status StepStatus.IN_PROGRESS) progress_records with
        | Some p => Some p
        | None => last_opt progress_records
        end in
      let form_data :=
        fold_left (fun acc p =>
                     match StepProgress.step_data p with
                     | Some d => match d with [] => acc | _ => dict_update acc d end
                     | None => acc
                     end) progress_records [] in
      ret (Some (FlowState.mk session_id
        (match current_progress with Some p => StepProgress.step_number p | None => 1 end)
        (match current_progress with
         | Some p => StepProgress.step_name p
         | None => StepName.SERVICE_SELECTION end)
        (map StepProgress.step_id (filter (has_status StepStatus.COMPLETED) progress_records))
        form_data ServiceType.LANDING_PAGE
        (conversion_completed (Analytics.conversion_status a))
        (Analytics.created_at a) (Analytics.updated_at a)))
  end.

(** ** HTTP layer ([app/api/v1/onboarding.py]) *)

(** Status code of [POST /flow/submit] for the outcome of the service call. *)
Definition submit_endpoint_status (r : result SubmitResult.t) : Z :=
  match r with
  | Ok _ => 200
  | Err NotFoundError => 404
  | Err ValidationException => 422
  | Err _ => 500
  end.

(** Status code of [POST /flow/start] for the outcome of the service call. *)
Definition start_endpoint_status (r : result FlowStart.t) : Z :=
  match r with
  | Ok _ => 201
  | Err ValidationException => 422
  | Err _ => 500
  end.

(** Status code of [GET /flow/{session_id}]. *)
Definition flow_state_endpoint_status (r : result (option FlowState.t)) : Z :=
  match r with
  | Ok (Some _) => 200
  | Ok None => 404
  | Err _ => 500
  end.

(** A service call that never raises [ValidationException]. *)
Definition no_validation_error {A} (m : M A) : Prop :=
  forall s, snd (m s) <> Err ValidationException.

(** ** Row updates *)

(** The rows of a table after [update] of the rows selected by [k]. *)
Definition map_rows (k : StepProgress.t -> bool) (u : ProgressUpdate.t)
  (tbl : list StepProgress.t) : list StepProgress.t :=
  map (fun p => if k p then apply_progress_update u p else p) tbl.

(** The submitted step's rows: there is one, and each is completed with
    the submitted data. *)
Definition submitted_row_done (sid stid : string) (data : dict)
  (tbl : list StepProgress.t) : Prop :=
  (exists p, In p tbl /\ row_key sid stid p = true) /\
  (forall p, In p tbl -> row_key sid stid p = true ->
     StepProgress.status p = StepStatus.COMPLETED /\
     StepProgress.step_data p = Some data).

(** The identity of a progress row: session, step id and step number. *)
Definition row_ident (p : StepProgress.t) : option string * string * Z :=
  (StepProgress.submission_id p, StepProgress.step_id p, StepProgress.step_number p).


(** A sequence of [submit_step_data] calls for one session, each run on
    the tables the previous one left, whatever its outcome. *)
Inductive submits (session_id : string) : Store -> Store -> Prop :=
| submits_nil s : submits session_id s s
| submits_cons req now s s1 r s2 :
    SubmitStepDataRequest.session_id req = session_id ->
    submit_step_data req now s = (s1, r) ->
    submits session_id s1 s2 -> submits session_id s s2.

Module Scenario.
Local Open Scope string_scope.

(** Three active steps for every service type; the first declares a
    required field [name]. *)
Definition s1 := Step.mk "s1" 1 StepName.SERVICE_SELECTION (Some ["name"]) None None true.
Definition s2 := Step.mk "s2" 2 StepName.BASIC_INFO None None None true.
Definition s3 := Step.mk "s3" 3 StepName.REVIEW None None None true.
Definition three_steps : Store := mkStore [s1; s2; s3] [] [].

(** The Analytics row of a three-step session started at 100. *)
Definition started_analytics : Analytics.t := initial_analytics "sid" 3 100.

(** Session [sid] over [three_steps] with the rows [start_flow] is written
    to create at 100: [s1] in progress since 100, [s2] and [s3] pending,
    and the session's Analytics row. *)
Definition started : Store :=
  mkStore [s1; s2; s3] (map (initial_progress "sid" 100) [s1; s2; s3]) [started_analytics].

(** The same session after step [s1] was hard-deleted from the catalog
    ([DELETE /steps/s1?hard_delete=true]); progress rows have no foreign
    key to the catalog and stay. *)
Definition retired : Store :=
  mkStore [s2; s3] (map (initial_progress "sid" 100) [s1; s2; s3]) [started_analytics].

Definition submit (step_id : string) (data : dict) (now : Z) (s : Store)
  : Store * result SubmitResult.t :=
  submit_step_data (SubmitStepDataRequest.mk "sid" step_id data None) now s.

Definition row (step_id : string) (s : Store) : option StepProgress.t :=
  find (row_key "sid" step_id) (progress s).

(** A progress record in flight: [in_progress], 10 seconds recorded. *)
Definition busy_row : StepProgress.t :=
  StepProgress.mk (Some "sid") "s1" 1 StepName.SERVICE_SELECTION
    StepStatus.IN_PROGRESS None None None (Some 100) None (Some 10) 1 None None.

(** A completed progress record whose recorded time is [0]. *)
Definition instant_row : StepProgress.t :=
  StepProgress.mk (Some "sid") "s1" 1 StepName.SERVICE_SELECTION
    StepStatus.COMPLETED None None None (Some 100) (Some 100) (Some 0) 1 None None.

(** A completed progress record that took 10 seconds. *)
Definition done_row : StepProgress.t :=
  StepProgress.mk (Some "sid") "s1" 1 StepName.SERVICE_SELECTION
    StepStatus.COMPLETED None None None (Some 100) (Some 110) (Some 10) 1 None None.

(** An Analytics row without progress rows. *)
Definition analytics_only : Store := mkStore [s1; s2; s3] [] [started_analytics].

(** The session [retired] after [s1] is submitted at 110. *)
Definition after_s1 : Store := fst (submit "s1" [("name", "x")] 110 retired).
End Scenario.

(** * Properties *)

Lemma StepStatus_eqb_eq a b : StepStatus.eqb a b = true <-> a = b.
Proof. destruct a, b; simpl; split; congruence. Qed.

Section Evaluations.
Import Scenario.
Local Open Scope string_scope.

(** C1 (counterexample): a payload without the required field [name] of
    step [s1] is not rejected: the row is committed as [completed], its
    [attempt_count] stays [1] and no [validation_errors] are recorded; the
    call then fails with [ProgrammingError] in [get_next_step]. *)
Lemma submit_missing_required_field_accepted :
  Step.required_fields s1 = Some ["name"] /\
  snd (submit "s1" [("email", "a@b.c")] 110 started) = Err ProgrammingError /\
  exists p, row "s1" (fst (submit "s1" [("email", "a@b.c")] 110 started)) = Some p /\
    StepProgress.status p = StepStatus.COMPLETED /\
    StepProgress.status p <> StepStatus.IN_PROGRESS /\
    StepProgress.attempt_count p = 1 /\
    StepProgress.validation_errors p = None.
Proof.
  split; [reflexivity|]. split; [vm_compute; reflexivity|].
  eexists. split; [vm_compute; reflexivity|].
  repeat split; discriminate.
Qed.

(** C3: the three steps of [three_steps] are applicable to [landing_page],
    yet [start_flow] raises [ProgrammingError] from the step query and
    creates no progress row and no Analytics row. *)
Theorem start_flow_creates_no_rows :
  spec_applicable_steps (steps three_steps) ServiceType.LANDING_PAGE = [s1; s2; s3] /\
  start_flow "sid" ServiceType.LANDING_PAGE 100 three_steps
    = (three_steps, Err ProgrammingError) /\
  progress (fst (start_flow "sid" ServiceType.LANDING_PAGE 100 three_steps)) = [] /\
  analytics (fst (start_flow "sid" ServiceType.LANDING_PAGE 100 three_steps)) = [].
Proof. vm_compute. repeat split. Qed.

(** C4: in the session [started], [s2] is the next step after [s1] for
    every service type, but submitting [s1] raises [ProgrammingError] in
    [get_next_step] (asked for [landing_page]): no [can_proceed] is
    returned and [s2] stays [pending], while [s1] is already [completed]. *)
Theorem submit_next_step_not_started :
  (forall st, spec_next_step (steps started) "s1" st = Some s2) /\
  option_map StepProgress.status (row "s2" started) = Some StepStatus.PENDING /\
  snd (submit "s1" [("name", "x")] 110 started) = Err ProgrammingError /\
  option_map StepProgress.status (row "s2" (fst (submit "s1" [("name", "x")] 110 started)))
    = Some StepStatus.PENDING /\
  option_map StepProgress.status (row "s1" (fst (submit "s1" [("name", "x")] 110 started)))
    = Some StepStatus.COMPLETED.
Proof.
  split; [intros []; vm_compute; reflexivity|]. vm_compute. repeat split.
Qed.

(** C5: [get_steps_for_service_type] never returns the applicable steps:
    it raises [ProgrammingError] on every store, also when the
    specification's sequence is non-empty (all three steps of
    [three_steps]); so [start_flow] never fails with the
    [ValidationException] reserved for an empty sequence. *)
Theorem get_steps_for_service_type_raises :
  spec_applicable_steps (steps three_steps) ServiceType.WEB_APP = [s1; s2; s3] /\
  get_steps_for_service_type ServiceType.WEB_APP three_steps
    = (three_steps, Err ProgrammingError) /\
  (forall st s, get_steps_for_service_type st s = (s, Err ProgrammingError)) /\
  (forall session_id st now s,
     snd (start_flow session_id st now s) <> Err ValidationException).
Proof.
  split; [vm_compute; reflexivity|]. split; [reflexivity|].
  split; [reflexivity|]. intros. discriminate.
Qed.

(** C6 (counterexample): no completed record, 10 seconds in total, yet
    [average_step_time] is [0], not [total_time_spent]. *)
Lemma average_step_time_without_completed :
  exists a, snd (update_analytics_from_progress "sid" [busy_row] 105 started) = Ok a /\
    Analytics.completed_steps a = 0 /\
    Analytics.total_time_spent a = 10 /\
    Analytics.average_step_time a = 0 /\
    Analytics.average_step_time a <> Analytics.total_time_spent a.
Proof.
  eexists. split; [vm_compute; reflexivity|]. vm_compute. repeat split; discriminate.
Qed.

(** C7 (counterexample): the only completed record has [time_spent = 0]
    (non-null), yet neither [fastest_step] nor [slowest_step] names it. *)
Lemma fastest_step_ignores_zero_time :
  StepProgress.time_spent instant_row = Some 0 /\
  StepProgress.status instant_row = StepStatus.COMPLETED /\
  exists a, snd (update_analytics_from_progress "sid" [instant_row] 105 started) = Ok a /\
    Analytics.completed_steps a = 1 /\
    Analytics.fastest_step a = None /\
    Analytics.slowest_step a = None.
Proof.
  split; [reflexivity|]. split; [reflexivity|].
  eexists. split; [vm_compute; reflexivity|]. vm_compute. repeat split.
Qed.

(** C8: submitting [s1] at 110 and again at 150 overwrites [completed_at]
    of [s1] (110, then 150): [submit_step_data] passes [completed_at]
    explicitly in [kwargs], past the set-only-if-unset guard of
    [update_step_status].  Both calls fail afterwards in [get_next_step],
    but each row update was already committed. *)
Theorem resubmission_overwrites_completed_at :
  let once := submit "s1" [("name", "x")] 110 started in
  let twice := submit "s1" [("name", "y")] 150 (fst once) in
  snd once = Err ProgrammingError /\
  snd twice = Err ProgrammingError /\
  option_map StepProgress.completed_at (row "s1" (fst once)) = Some (Some 110) /\
  option_map StepProgress.completed_at (row "s1" (fst twice)) = Some (Some 150).
Proof. vm_compute. repeat split. Qed.
End Evaluations.


(** ** Sorting *)

Section SortByFacts.
Context {A : Type} (key : A -> Z).

Lemma insert_by_perm x l : Permutation (insert_by key x l) (x :: l).
Proof.
  induction l as [|y r IH]; simpl; [reflexivity|].
  destruct (key x <=? key y); [reflexivity|].
  rewrite IH. apply perm_swap.
Qed.

Lemma sort_by_perm l : Permutation (sort_by key l) l.
Proof.
  induction l as [|x r IH]; simpl; [reflexivity|].
  rewrite insert_by_perm, IH. reflexivity.
Qed.

Let le_key (a b : A) : Prop := key a <= key b.

Lemma insert_by_sorted x l :
  Sorted le_key l -> Sorted le_key (insert_by key x l).
Proof.
  induction 1 as [|y r Hs IH Hhd]; simpl.
  - repeat constructor.
  - destruct (key x <=? key y) eqn:E.
    + apply Z.leb_le in E. constructor; [constructor; auto|constructor; exact E].
    + apply Z.leb_gt in E. constructor; [exact IH|].
      destruct r as [|z r']; simpl.
      * constructor. unfold le_key. lia.
      * inversion Hhd; subst.
        destruct (key x <=? key z); constructor; unfold le_key in *; lia.
Qed.

Lemma sort_by_sorted l : Sorted le_key (sort_by key l).
Proof.
  induction l as [|x r IH]; simpl; [constructor|].
  apply insert_by_sorted, IH.
Qed.
End SortByFacts.

(** ** Analytics *)

Lemma filter_singleton_in {A} (f : A -> bool) l a :
  filter f l = [a] -> In a l /\ f a = true.
Proof.
  intro H. assert (Hin : In a (filter f l)) by (rewrite H; left; reflexivity).
  apply filter_In in Hin. exact Hin.
Qed.

Lemma update_analytics_from_progress_run sid recs now s s' a :
  update_analytics_from_progress sid recs now s = (s', Ok a) ->
  exists a0,
    filter (fun b => String.eqb (Analytics.session_id b) sid) (analytics s) = [a0] /\
    a = analytics_from_progress a0 recs now /\
    s' = mkStore (steps s) (progress s)
           (map (fun b => if String.eqb (Analytics.session_id b) sid then a else b)
                (analytics s)).
Proof.
  unfold update_analytics_from_progress, bind, get_by_session_id, scalar_one_or_none.
  destruct (filter _ (analytics s)) as [|a0 [|a1 r]] eqn:F; simpl; intro H;
    inversion H; subst; clear H.
  exists a0. auto.
Qed.

Lemma analytics_from_progress_session a recs now :
  Analytics.session_id (analytics_from_progress a recs now) = Analytics.session_id a.
Proof. reflexivity. Qed.

(** The written row is the session's only row afterwards. *)
Lemma update_analytics_from_progress_row sid recs now s s' a :
  update_analytics_from_progress sid recs now s = (s', Ok a) ->
  In a (analytics s') /\
  (forall b, In b (analytics s') -> Analytics.session_id b = sid -> b = a).
Proof.
  intro H. destruct (update_analytics_from_progress_run _ _ _ _ _ _ H)
    as (a0 & F & -> & ->). simpl.
  destruct (filter_singleton_in _ _ _ F) as [Hin Hs].
  split.
  - apply in_map_iff. exists a0. rewrite Hs. auto.
  - intros b Hb Hsb. apply in_map_iff in Hb as (c & Hc & _).
    destruct (String.eqb (Analytics.session_id c) sid) eqn:E; [auto|].
    subst c. rewrite Hsb, String.eqb_refl in E. discriminate.
Qed.

Lemma count_status_nonneg st recs : 0 <= count_status st recs.
Proof. unfold count_status. lia. Qed.

Lemma existsb_error recs :
  existsb (has_status StepStatus.ERROR) recs = true <->
  exists p, In p recs /\ StepProgress.status p = StepStatus.ERROR.
Proof.
  rewrite existsb_exists. unfold has_status.
  split; intros (p & Hp & E); exists p; split; auto; apply StepStatus_eqb_eq; auto.
Qed.

(** C2: after a successful [update_analytics_from_progress] the session's
    (only) Analytics row has [completion_rate = floor(completed_steps * 100 /
    total_steps)], [conversion_status = completed] exactly when
    [completion_rate >= 100], and below 100 it is [abandoned] when some
    record has status [error] and [in_progress] otherwise. *)
Theorem update_analytics_rate_and_status sid recs now s s' a
  (Hrun : update_analytics_from_progress sid recs now s = (s', Ok a))
  (Htotal : 0 < Analytics.total_steps a) :
  In a (analytics s') /\
  (forall b, In b (analytics s') -> Analytics.session_id b = sid -> b = a) /\
  Analytics.completed_steps a = count_status StepStatus.COMPLETED recs /\
  Analytics.completion_rate a = Analytics.completed_steps a * 100 / Analytics.total_steps a /\
  (Analytics.conversion_status a = ConversionStatus.COMPLETED <->
     100 <= Analytics.completion_rate a) /\
  (Analytics.completion_rate a < 100 ->
     (Analytics.conversion_status a = ConversionStatus.ABANDONED <->
        exists p, In p recs /\ StepProgress.status p = StepStatus.ERROR) /\
     (Analytics.conversion_status a = ConversionStatus.IN_PROGRESS <->
        ~ exists p, In p recs /\ StepProgress.status p = StepStatus.ERROR)).
Proof.
  destruct (update_analytics_from_progress_row _ _ _ _ _ _ Hrun) as [Hin Huniq].
  destruct (update_analytics_from_progress_run _ _ _ _ _ _ Hrun) as (a0 & _ & Ha & _).
  subst a. split; [exact Hin|]. split; [exact Huniq|].
  unfold analytics_from_progress in *; simpl in *.
  destruct (0 <? Analytics.total_steps a0) eqn:Ht; [|apply Z.ltb_ge in Ht; lia].
  split; [reflexivity|]. split; [reflexivity|].
  pose proof (existsb_error recs) as Hex.
  destruct (existsb (has_status StepStatus.ERROR) recs) eqn:Ee;
    destruct (100 <=? _) eqn:E100;
    [apply Z.leb_le in E100|apply Z.leb_gt in E100|apply Z.leb_le in E100|apply Z.leb_gt in E100];
    (split; [split; [intro Hc; try discriminate Hc; lia|intro; try lia; reflexivity]|]);
    intro Hlt; try lia.
  - split; split; intro H; try discriminate H; try reflexivity; try (apply Hex; reflexivity).
    exfalso. apply H, Hex. reflexivity.
  - split; split; intro H; try discriminate H; try reflexivity.
    + apply Hex in H. discriminate.
    + intro Hp. apply Hex in Hp. discriminate.
Qed.

(** C6 (amended): [average_step_time] is [total_time_spent // completed_steps]
    when some record is completed, and [0] otherwise. *)
Theorem update_analytics_average_step_time sid recs now s s' a
  (Hrun : update_analytics_from_progress sid recs now s = (s', Ok a)) :
  Analytics.completed_steps a = count_status StepStatus.COMPLETED recs /\
  Analytics.total_time_spent a =
    fold_right (fun p acc => pick (StepProgress.time_spent p) 0 + acc) 0 recs /\
  Analytics.average_step_time a =
    (if 0 <? Analytics.completed_steps a
     then Analytics.total_time_spent a / Analytics.completed_steps a
     else 0).
Proof.
  destruct (update_analytics_from_progress_run _ _ _ _ _ _ Hrun) as (a0 & _ & Ha & _).
  subst a. unfold analytics_from_progress; simpl.
  split; [reflexivity|]. split; [reflexivity|].
  destruct (0 <? count_status StepStatus.COMPLETED recs) eqn:E; [|reflexivity].
  apply Z.ltb_lt in E. rewrite Z.max_l by lia. reflexivity.
Qed.

Section ExtremumFacts.
Context {A : Type} (key : A -> Z).

Lemma min_from_spec best l :
  In (min_from key best l) (best :: l) /\
  (forall x, In x (best :: l) -> key (min_from key best l) <= key x).
Proof.
  revert best. induction l as [|y r IH]; intro best; simpl.
  - split; [left; reflexivity|]. intros x [<-|[]]. lia.
  - destruct (key y <? key best) eqn:E;
      [apply Z.ltb_lt in E; destruct (IH y) as [Hin Hle]
      |apply Z.ltb_ge in E; destruct (IH best) as [Hin Hle]]; simpl in Hin.
    + split; [destruct Hin as [H|H]; auto|].
      intros x [<-|[<-|Hx]].
      * specialize (Hle y (or_introl eq_refl)). lia.
      * apply Hle. left. reflexivity.
      * apply Hle. right. exact Hx.
    + split; [destruct Hin as [H|H]; auto|].
      intros x [<-|[<-|Hx]].
      * apply Hle. left. reflexivity.
      * specialize (Hle best (or_introl eq_refl)). lia.
      * apply Hle. right. exact Hx.
Qed.

Lemma max_from_spec best l :
  In (max_from key best l) (best :: l) /\
  (forall x, In x (best :: l) -> key x <= key (max_from key best l)).
Proof.
  revert best. induction l as [|y r IH]; intro best; simpl.
  - split; [left; reflexivity|]. intros x [<-|[]]. lia.
  - destruct (key best <? key y) eqn:E;
      [apply Z.ltb_lt in E; destruct (IH y) as [Hin Hle]
      |apply Z.ltb_ge in E; destruct (IH best) as [Hin Hle]]; simpl in Hin.
    + split; [destruct Hin as [H|H]; auto|].
      intros x [<-|[<-|Hx]].
      * specialize (Hle y (or_introl eq_refl)). lia.
      * apply Hle. left. reflexivity.
      * apply Hle. right. exact Hx.
    + split; [destruct Hin as [H|H]; auto|].
      intros x [<-|[<-|Hx]].
      * apply Hle. left. reflexivity.
      * specialize (Hle best (or_introl eq_refl)). lia.
      * apply Hle. right. exact Hx.
Qed.
End ExtremumFacts.

(** The records [min]/[max] range over: completed, [time_spent] truthy. *)
Lemma completed_progress_In recs r :
  In r (completed_progress recs) <->
  In r recs /\ StepProgress.status r = StepStatus.COMPLETED /\
  exists t, StepProgress.time_spent r = Some t /\ t <> 0.
Proof.
  unfold completed_progress, has_status, time_truthy.
  rewrite filter_In, andb_true_iff, StepStatus_eqb_eq.
  destruct (StepProgress.time_spent r) as [t|].
  - rewrite negb_true_iff, Z.eqb_neq. split.
    + intros (H1 & H2 & H3). eauto.
    + intros (H1 & H2 & t' & E & H3). injection E as <-. auto.
  - split; [intros (_ & _ & H); discriminate|].
    intros (_ & _ & t' & E & _). discriminate.
Qed.

(** C7 (amended): [fastest_step]/[slowest_step] name a record of minimum /
    maximum [time_spent] among the completed records whose [time_spent] is
    non-null and non-zero; with no such record the computed value is [None],
    which the update skips, so the stored names are left as they were. *)
Theorem update_analytics_fastest_slowest sid recs now s s' a0 a
  (Hrow : filter (fun b => String.eqb (Analytics.session_id b) sid) (analytics s) = [a0])
  (Hrun : update_analytics_from_progress sid recs now s = (s', Ok a)) :
  let timed r := In r recs /\ StepProgress.status r = StepStatus.COMPLETED /\
                 exists t, StepProgress.time_spent r = Some t /\ t <> 0 in
  ((forall r, ~ timed r) ->
     Analytics.fastest_step a = Analytics.fastest_step a0 /\
     Analytics.slowest_step a = Analytics.slowest_step a0) /\
  ((exists r, timed r) ->
     exists p q, timed p /\ timed q /\
       Analytics.fastest_step a = Some (StepProgress.step_name p) /\
       Analytics.slowest_step a = Some (StepProgress.step_name q) /\
       (forall r, timed r -> time_key p <= time_key r <= time_key q)).
Proof.
  destruct (update_analytics_from_progress_run _ _ _ _ _ _ Hrun) as (a1 & F & Ha & _).
  rewrite Hrow in F. injection F as <-. subst a.
  intro timed. unfold analytics_from_progress; simpl.
  assert (Ht : forall r, timed r <-> In r (completed_progress recs))
    by (intro r; rewrite completed_progress_In; reflexivity).
  destruct (completed_progress recs) as [|c cs] eqn:Ec; simpl.
  - split; [auto|]. intros (r & Hr). apply Ht in Hr. destruct Hr.
  - split.
    + intro Hn. exfalso. apply (Hn c), Ht. left. reflexivity.
    + intros _.
      destruct (min_from_spec time_key c cs) as [Hmin Hmin'].
      destruct (max_from_spec time_key c cs) as [Hmax Hmax'].
      exists (min_from time_key c cs), (max_from time_key c cs).
      split; [apply Ht; exact Hmin|]. split; [apply Ht; exact Hmax|].
      split; [reflexivity|]. split; [reflexivity|].
      intros r Hr. apply Ht in Hr. split; [apply Hmin'|apply Hmax']; exact Hr.
Qed.


(** C10: with an Analytics row and no progress rows for the session,
    [get_flow_state] returns a state at step 1 ([service_selection]) with
    an empty history and empty form data, and changes nothing. *)
Theorem get_flow_state_without_progress session_id s a
  (Hrow : filter (fun b => String.eqb (Analytics.session_id b) session_id)
            (analytics s) = [a])
  (Hnone : forall p, In p (progress s) ->
             StepProgress.submission_id p <> Some session_id) :
  exists fs,
    get_flow_state session_id s = (s, Ok (Some fs)) /\
    FlowState.current_step fs = 1 /\
    FlowState.current_step_name fs = StepName.SERVICE_SELECTION /\
    FlowState.step_history fs = [] /\
    FlowState.form_data fs = [].
Proof.
  assert (Hf : filter (in_session session_id) (progress s) = []).
  { induction (progress s) as [|p r IH]; simpl; [reflexivity|].
    unfold in_session at 1.
    destruct (StepProgress.submission_id p) as [x|] eqn:E.
    - destruct (String.eqb x session_id) eqn:Ex.
      + apply String.eqb_eq in Ex. subst x.
        exfalso. apply (Hnone p); [left; reflexivity|exact E].
      + apply IH. intros q Hq. apply Hnone. right. exact Hq.
    - apply IH. intros q Hq. apply Hnone. right. exact Hq. }
  unfold get_flow_state, bind, get_by_session_id, get_session_progress, gets,
    get_session_progress_pure.
  rewrite Hrow. simpl. rewrite Hf. simpl.
  eexists. split; [reflexivity|]. repeat split.
Qed.


(** ** Further properties *)

(** *** Generic list facts *)

Lemma filter_nil_iff {A} (f : A -> bool) l :
  filter f l = [] <-> forall x, In x l -> f x = false.
Proof.
  induction l as [|y r IH]; simpl; [split; [intros _ x []|reflexivity]|].
  destruct (f y) eqn:E; split.
  - discriminate.
  - intro H. rewrite (H y (or_introl eq_refl)) in E. discriminate.
  - intros H x [<-|Hx]; [exact E|]. apply IH; assumption.
  - intro H. apply IH. intros x Hx. apply H. right. exact Hx.
Qed.

Lemma filter_all {A} (f : A -> bool) l :
  (forall x, In x l -> f x = true) -> filter f l = l.
Proof.
  induction l as [|y r IH]; simpl; intro H; [reflexivity|].
  rewrite (H y (or_introl eq_refl)), IH; [reflexivity|].
  intros x Hx. apply H. right. exact Hx.
Qed.

Lemma filter_singleton_unique {A} (f : A -> bool) l a x :
  filter f l = [a] -> In x l -> f x = true -> x = a.
Proof.
  intros F Hx Hf. assert (H : In x (filter f l)) by (apply filter_In; auto).
  rewrite F in H. destruct H as [<-|[]]. reflexivity.
Qed.

(** ** Submission pipeline *)

Lemma bind_ok {A B} (m : M A) (k : A -> M B) s s' b :
  bind m k s = (s', Ok b) -> exists s1 a, m s = (s1, Ok a) /\ k a s1 = (s', Ok b).
Proof.
  unfold bind. destruct (m s) as [s1 [a|e]]; intro H; [eauto|discriminate].
Qed.

Lemma bind_step {A B} (m : M A) (k : A -> M B) s s1 a :
  m s = (s1, Ok a) -> bind m k s = k a s1.
Proof. unfold bind. intro H. rewrite H. reflexivity. Qed.

Lemma bind_fail {A B} (m : M A) (k : A -> M B) s s1 e :
  m s = (s1, Err e) -> bind m k s = (s1, Err e).
Proof. unfold bind. intro H. rewrite H. reflexivity. Qed.

(** A continuation that writes nothing leaves the tables [m] left. *)
Lemma bind_store {A B} (m : M A) (k : A -> M B) s :
  (forall a s1, fst (k a s1) = s1) -> fst (bind m k s) = fst (m s).
Proof.
  intro Hk. unfold bind. destruct (m s) as [s1 [a|e]]; simpl; [apply Hk|reflexivity].
Qed.

Lemma calculate_time_spent_pure sid stid now s :
  exists t, calculate_time_spent sid stid now s = (s, Ok t).
Proof.
  unfold calculate_time_spent.
  destruct (get_step_progress sid stid s) as [x [[p|]|e]];
    try (eexists; reflexivity).
  destruct (StepProgress.started_at p), (StepProgress.completed_at p),
    (StepProgress.exited_at p); eexists; reflexivity.
Qed.

(** The time a submission records: the one passed, else the computed one. *)
Lemma submit_time_spent_pure (ts : option Z) sid stid now s :
  exists t, (match ts with
             | Some t => if t =? 0 then calculate_time_spent sid stid now else ret t
             | None => calculate_time_spent sid stid now
             end) s = (s, Ok t).
Proof.
  destruct (calculate_time_spent_pure sid stid now s) as [t' Et].
  destruct ts as [t0|]; [destruct (t0 =? 0)|]; eauto. exists t0. reflexivity.
Qed.

Lemma update_step_status_ok sid stid st kw now s s' p' :
  update_step_status sid stid st kw now s = (s', Ok p') ->
  exists p u,
    filter (row_key sid stid) (progress s) = [p] /\
    ProgressUpdate.status u = Some st /\
    ProgressUpdate.step_data u = ProgressUpdate.step_data kw /\
    ProgressUpdate.attempt_count u = ProgressUpdate.attempt_count kw /\
    ProgressUpdate.validation_errors u = ProgressUpdate.validation_errors kw /\
    s' = mkStore (steps s) (map_rows (row_key sid stid) u (progress s)) (analytics s).
Proof.
  unfold update_step_status, bind, get_step_progress, scalar_one_or_none.
  destruct (filter (row_key sid stid) (progress s)) as [|p [|p1 r]] eqn:F;
    simpl; intro H; inversion H; subst; clear H.
  do 2 eexists. split; [reflexivity|]. split; [|split; [|split; [|split]]].
  5: reflexivity.
  all: reflexivity.
Qed.

Lemma map_rows_counters k u tbl :
  ProgressUpdate.attempt_count u = None ->
  ProgressUpdate.validation_errors u = None ->
  map StepProgress.attempt_count (map_rows k u tbl) = map StepProgress.attempt_count tbl /\
  map StepProgress.validation_errors (map_rows k u tbl)
    = map StepProgress.validation_errors tbl.
Proof.
  intros Ha Hv. induction tbl as [|p r [IH1 IH2]]; simpl; [auto|].
  rewrite IH1, IH2. destruct (k p); simpl; [rewrite Ha, Hv|]; auto.
Qed.

Lemma row_key_apply sid stid u p :
  row_key sid stid (apply_progress_update u p) = row_key sid stid p.
Proof. reflexivity. Qed.

Lemma in_session_apply sid u p :
  in_session sid (apply_progress_update u p) = in_session sid p.
Proof. reflexivity. Qed.

Lemma map_rows_In_updated k u tbl p :
  In p tbl -> k p = true -> In (apply_progress_update u p) (map_rows k u tbl).
Proof.
  intros Hin Hk. apply in_map_iff. exists p. rewrite Hk. auto.
Qed.

Lemma map_rows_In_other k u tbl p :
  In p tbl -> k p = false -> In p (map_rows k u tbl).
Proof.
  intros Hin Hk. apply in_map_iff. exists p. rewrite Hk. auto.
Qed.

Lemma map_rows_In_inv k u tbl q :
  In q (map_rows k u tbl) ->
  exists p, In p tbl /\ q = (if k p then apply_progress_update u p else p).
Proof. intro H. apply in_map_iff in H as (p & <- & Hp). eauto. Qed.

Lemma map_rows_ident k u tbl : map row_ident (map_rows k u tbl) = map row_ident tbl.
Proof.
  induction tbl as [|p r IH]; simpl; [reflexivity|]. rewrite IH. destruct (k p); reflexivity.
Qed.

Lemma get_step_progress_state sid stid s s1 o :
  get_step_progress sid stid s = (s1, o) -> s1 = s.
Proof.
  unfold get_step_progress, scalar_one_or_none.
  destruct (filter _ _) as [|p [|q r]]; intro H; inversion H; reflexivity.
Qed.

Lemma gets_inv {A} (f : Store -> A) s s1 a :
  gets f s = (s1, Ok a) -> s1 = s /\ a = f s.
Proof. unfold gets. intro H. inversion H. auto. Qed.

Lemma submitted_row_done_after_update sid stid data u tbl p1 :
  filter (row_key sid stid) tbl = [p1] ->
  ProgressUpdate.status u = Some StepStatus.COMPLETED ->
  ProgressUpdate.step_data u = Some data ->
  submitted_row_done sid stid data (map_rows (row_key sid stid) u tbl).
Proof.
  intros F Hs Hd. destruct (filter_singleton_in _ _ _ F) as [Hin Hk]. split.
  - exists (apply_progress_update u p1). split; [|rewrite row_key_apply; exact Hk].
    apply map_rows_In_updated; assumption.
  - intros q Hq Hkq. apply map_rows_In_inv in Hq as (p & Hp & ->).
    destruct (row_key sid stid p) eqn:Ek.
    + unfold apply_progress_update; simpl. rewrite Hs, Hd. auto.
    + exfalso. try rewrite Ek in Hkq. congruence.
Qed.

Lemma get_step_progress_found sid stid s p :
  filter (row_key sid stid) (progress s) = [p] ->
  get_step_progress sid stid s = (s, Ok (Some p)).
Proof. intro F. unfold get_step_progress, scalar_one_or_none. rewrite F. reflexivity. Qed.

Lemma update_step_status_found sid stid st kw now s p :
  filter (row_key sid stid) (progress s) = [p] ->
  exists u,
    update_step_status sid stid st kw now s =
      (mkStore (steps s) (map_rows (row_key sid stid) u (progress s)) (analytics s),
       Ok (apply_progress_update u p)) /\
    ProgressUpdate.status u = Some st /\
    ProgressUpdate.step_data u = ProgressUpdate.step_data kw /\
    ProgressUpdate.attempt_count u = ProgressUpdate.attempt_count kw /\
    ProgressUpdate.validation_errors u = ProgressUpdate.validation_errors kw.
Proof.
  intro F. unfold update_step_status, bind at 1. rewrite (get_step_progress_found _ _ _ _ F).
  eexists. split; [reflexivity|]. repeat split.
Qed.

(** [get_next_step] after [get_by_id]: [None] for an unknown id, the
    failing query otherwise; no table changes. *)
Lemma get_next_step_unfold stid st s :
  get_next_step stid st s =
    match get_step_by_id (steps s) stid with
    | None => (s, Ok None)
    | Some _ => (s, Err ProgrammingError)
    end.
Proof.
  unfold get_next_step, bind, gets. simpl.
  destruct (get_step_by_id (steps s) stid); reflexivity.
Qed.

Lemma get_previous_step_unfold stid st s :
  get_previous_step stid st s =
    match get_step_by_id (steps s) stid with
    | None => (s, Ok None)
    | Some _ => (s, Err ProgrammingError)
    end.
Proof.
  unfold get_previous_step, bind, gets. simpl.
  destruct (get_step_by_id (steps s) stid); reflexivity.
Qed.

(** One run of [submit_step_data] past the row lookup: the submitted row
    is written as [completed]; then a step found in the catalog makes
    [get_next_step] fail, and an unknown one leads to the analytics update
    and the result. *)
Lemma submit_step_data_run req now s p0 :
  filter (row_key (SubmitStepDataRequest.session_id req) (SubmitStepDataRequest.step_id req))
    (progress s) = [p0] ->
  exists u,
    ProgressUpdate.status u = Some StepStatus.COMPLETED /\
    ProgressUpdate.step_data u = Some (SubmitStepDataRequest.step_data req) /\
    ProgressUpdate.attempt_count u = None /\
    ProgressUpdate.validation_errors u = None /\
    submit_step_data req now s =
      let sid := SubmitStepDataRequest.session_id req in
      let s1 := mkStore (steps s)
                  (map_rows (row_key sid (SubmitStepDataRequest.step_id req)) u (progress s))
                  (analytics s) in
      let all := get_session_progress_pure (progress s1) sid in
      match get_step_by_id (steps s) (SubmitStepDataRequest.step_id req) with
      | Some _ => (s1, Err ProgrammingError)
      | None =>
          bind (update_analytics_from_progress sid all now)
            (fun _ => if length_Z all =? 0 then raise ZeroDivisionError
                      else ret (SubmitResult.mk true [] None
                                  ((count_status StepStatus.COMPLETED all * 100) / length_Z all)
                                  false)) s1
      end.
Proof.
  destruct req as [sid stid data ts]. simpl. intro Hrow.
  destruct (submit_time_spent_pure ts sid stid now s) as [t Ht].
  destruct (update_step_status_found sid stid StepStatus.COMPLETED
              (ProgressUpdate.mk None (Some data) None (Some data) None
                 (Some now) (Some t) None None None) now s p0 Hrow)
    as (u & Hu & Hus & Hud & Hua & Huv).
  exists u. split; [exact Hus|]. split; [exact Hud|]. split; [exact Hua|]. split; [exact Huv|].
  unfold submit_step_data. simpl.
  rewrite (bind_step _ _ _ _ _ (get_step_progress_found _ _ _ _ Hrow)).
  cbv beta iota.
  rewrite (bind_step _ _ _ _ _ Ht). cbv beta.
  rewrite (bind_step _ _ _ _ _ Hu). cbv beta.
  set (s1 := mkStore (steps s) (map_rows (row_key sid stid) u (progress s)) (analytics s)).
  rewrite (bind_step _ _ _ _ _ (eq_refl : gets (fun s => get_step_by_id (steps s) stid) s1
                                        = (s1, Ok (get_step_by_id (steps s) stid)))).
  cbv beta.
  assert (Hn := get_next_step_unfold stid ServiceType.LANDING_PAGE s1).
  change (steps s1) with (steps s) in Hn.
  destruct (get_step_by_id (steps s) stid) as [cur|] eqn:E.
  - exact (bind_fail _ _ _ _ _ Hn).
  - rewrite (bind_step _ _ _ _ _ Hn). reflexivity.
Qed.

(** The tables after [update_analytics_from_progress], whatever the
    outcome: unchanged, or the session's one Analytics row recomputed. *)
Lemma update_analytics_store sid recs now s :
  fst (update_analytics_from_progress sid recs now s) = s \/
  exists a0,
    filter (fun b => String.eqb (Analytics.session_id b) sid) (analytics s) = [a0] /\
    fst (update_analytics_from_progress sid recs now s) =
      mkStore (steps s) (progress s)
        (map (fun b => if String.eqb (Analytics.session_id b) sid
                       then analytics_from_progress a0 recs now else b) (analytics s)).
Proof.
  unfold update_analytics_from_progress, bind, get_by_session_id, scalar_one_or_none.
  destruct (filter _ (analytics s)) as [|a0 [|a1 r]] eqn:F;
    [left; reflexivity| |left; reflexivity].
  right. exists a0. split; reflexivity.
Qed.

(** The progress tables after a submission for a session and step with
    one progress row, whatever the outcome: that row is updated to
    [completed] with the submitted data and the counters left out. *)
Lemma submit_step_data_progress_after req now s p0 :
  filter (row_key (SubmitStepDataRequest.session_id req) (SubmitStepDataRequest.step_id req))
    (progress s) = [p0] ->
  exists u,
    ProgressUpdate.status u = Some StepStatus.COMPLETED /\
    ProgressUpdate.step_data u = Some (SubmitStepDataRequest.step_data req) /\
    ProgressUpdate.attempt_count u = None /\
    ProgressUpdate.validation_errors u = None /\
    steps (fst (submit_step_data req now s)) = steps s /\
    progress (fst (submit_step_data req now s)) =
      map_rows (row_key (SubmitStepDataRequest.session_id req)
                        (SubmitStepDataRequest.step_id req)) u (progress s).
Proof.
  intro Hrow.
  destruct (submit_step_data_run req now s p0 Hrow) as (u & Hs & Hd & Ha & Hv & Hrun).
  exists u. do 4 (split; [assumption|]).
  rewrite Hrun. cbv zeta.
  destruct (get_step_by_id (steps s) (SubmitStepDataRequest.step_id req));
    [split; reflexivity|].
  rewrite bind_store; [|intros a s2; destruct (_ =? 0); reflexivity].
  match goal with
  | |- context [update_analytics_from_progress ?i ?rs ?n ?st] =>
      destruct (update_analytics_store i rs n st) as [E|(a0 & _ & E)]; rewrite E
  end; split; reflexivity.
Qed.

(** A submission for a session and step without exactly one progress row
    fails at the lookup and changes no table. *)
Lemma submit_step_data_lookup_fail req now s :
  (forall p0, filter (row_key (SubmitStepDataRequest.session_id req)
                              (SubmitStepDataRequest.step_id req)) (progress s) <> [p0]) ->
  exists e, submit_step_data req now s = (s, Err e) /\ e <> ValidationException.
Proof.
  intro H. unfold submit_step_data, bind, get_step_progress, scalar_one_or_none.
  destruct (filter _ (progress s)) as [|p [|q r]] eqn:F.
  - eexists; split; [reflexivity|discriminate].
  - exfalso. exact (H p eq_refl).
  - eexists; split; [reflexivity|discriminate].
Qed.

(** What a submission may change, whatever its outcome: the catalog is
    kept; the progress table is kept or has the submitted row completed;
    the Analytics table is kept or has the session's row recomputed. *)
Lemma submit_step_data_frame req now s :
  let sid := SubmitStepDataRequest.session_id req in
  let stid := SubmitStepDataRequest.step_id req in
  let s' := fst (submit_step_data req now s) in
  steps s' = steps s /\
  (progress s' = progress s \/
   exists p0 u,
     filter (row_key sid stid) (progress s) = [p0] /\
     ProgressUpdate.status u = Some StepStatus.COMPLETED /\
     progress s' = map_rows (row_key sid stid) u (progress s)) /\
  (analytics s' = analytics s \/
   exists a0 recs,
     filter (fun b => String.eqb (Analytics.session_id b) sid) (analytics s) = [a0] /\
     analytics s' = map (fun b => if String.eqb (Analytics.session_id b) sid
                                  then analytics_from_progress a0 recs now else b)
                        (analytics s)).
Proof.
  cbv zeta.
  destruct (filter (row_key (SubmitStepDataRequest.session_id req)
                            (SubmitStepDataRequest.step_id req)) (progress s))
    as [|p0 [|q r]] eqn:F.
  1,3: destruct (submit_step_data_lookup_fail req now s) as (e & He & _);
       [intros p1; rewrite F; discriminate|];
       rewrite He; simpl; auto.
  destruct (submit_step_data_progress_after req now s p0 F)
    as (u & Hs & _ & _ & _ & Hst & Hpr).
  split; [exact Hst|]. split; [right; exists p0, u; auto|].
  destruct (submit_step_data_run req now s p0 F) as (u' & _ & _ & _ & _ & Hrun).
  rewrite Hrun. cbv zeta.
  destruct (get_step_by_id (steps s) (SubmitStepDataRequest.step_id req)); [left; reflexivity|].
  rewrite bind_store; [|intros a s2; destruct (_ =? 0); reflexivity].
  match goal with
  | |- context [update_analytics_from_progress ?i ?rs ?n ?st] =>
      destruct (update_analytics_store i rs n st) as [E|(a0 & Fa & E)]; rewrite E
  end.
  - left. reflexivity.
  - right. exists a0. eexists. split; [exact Fa|reflexivity].
Qed.

(** A successful submission: the row was there, the step is not in the
    catalog (a step the catalog knows makes [get_next_step] fail), the
    session's Analytics row is recomputed from the session's rows after
    the update, and the result is computed from those rows. *)
Lemma submit_step_data_ok req now s s' r :
  submit_step_data req now s = (s', Ok r) ->
  let sid := SubmitStepDataRequest.session_id req in
  let stid := SubmitStepDataRequest.step_id req in
  exists p0 u a,
    filter (row_key sid stid) (progress s) = [p0] /\
    ProgressUpdate.status u = Some StepStatus.COMPLETED /\
    get_step_by_id (steps s) stid = None /\
    let s1 := mkStore (steps s) (map_rows (row_key sid stid) u (progress s)) (analytics s) in
    let all := get_session_progress_pure (progress s1) sid in
    update_analytics_from_progress sid all now s1 = (s', Ok a) /\
    length_Z all <> 0 /\
    r = SubmitResult.mk true [] None
          ((count_status StepStatus.COMPLETED all * 100) / length_Z all) false.
Proof.
  intro H. cbv zeta.
  destruct (filter (row_key (SubmitStepDataRequest.session_id req)
                            (SubmitStepDataRequest.step_id req)) (progress s))
    as [|p0 [|q l]] eqn:F.
  1,3: destruct (submit_step_data_lookup_fail req now s) as (e & He & _);
       [intros p1; rewrite F; discriminate|];
       rewrite He in H; discriminate H.
  destruct (submit_step_data_run req now s p0 F) as (u & Hs & _ & _ & _ & Hrun).
  rewrite Hrun in H. cbv zeta in H.
  destruct (get_step_by_id (steps s) (SubmitStepDataRequest.step_id req)) eqn:E;
    [discriminate H|].
  apply bind_ok in H as (s2 & a & Ha & Hk).
  exists p0, u, a. split; [reflexivity|]. split; [exact Hs|]. split; [reflexivity|].
  destruct (_ =? 0) eqn:Z0 in Hk; [discriminate Hk|].
  injection Hk as Hs2 Hr. subst s2.
  split; [exact Ha|]. split; [apply Z.eqb_neq; exact Z0|]. symmetry. exact Hr.
Qed.

Section NoValidationError.

Lemma nve_ret {A} (a : A) : no_validation_error (ret a).
Proof. intros s. discriminate. Qed.

Lemma nve_raise {A} e : e <> ValidationException -> no_validation_error (@raise A e).
Proof. intros He s H. apply He. injection H as ->. reflexivity. Qed.

Lemma nve_gets {A} (f : Store -> A) : no_validation_error (gets f).
Proof. intros s. discriminate. Qed.

Lemma nve_modify f : no_validation_error (modify f).
Proof. intros s. discriminate. Qed.

Lemma nve_bind {A B} (m : M A) (k : A -> M B) :
  no_validation_error m -> (forall a, no_validation_error (k a)) ->
  no_validation_error (bind m k).
Proof.
  intros Hm Hk s. unfold bind.
  destruct (m s) as [s1 [a|e]] eqn:E; [apply Hk|].
  simpl. intro H. injection H as ->. apply (Hm s). rewrite E. reflexivity.
Qed.

Lemma nve_scalar {A} (rows : list A) : no_validation_error (scalar_one_or_none rows).
Proof.
  destruct rows as [|x [|y r]]; [apply nve_ret|apply nve_ret|apply nve_raise; discriminate].
Qed.

Lemma nve_get_step_progress sid stid : no_validation_error (get_step_progress sid stid).
Proof. intros s. apply nve_scalar. Qed.

Lemma nve_get_by_session_id sid : no_validation_error (get_by_session_id sid).
Proof. intros s. apply nve_scalar. Qed.

Lemma nve_calculate_time_spent sid stid now :
  no_validation_error (calculate_time_spent sid stid now).
Proof.
  intros s. destruct (calculate_time_spent_pure sid stid now s) as [t ->]. discriminate.
Qed.

Lemma nve_update_step_status sid stid st kw now :
  no_validation_error (update_step_status sid stid st kw now).
Proof.
  apply nve_bind; [apply nve_get_step_progress|]. intros [p|]; [|apply nve_raise; discriminate].
  apply nve_bind; [apply nve_modify|]. intros _. apply nve_ret.
Qed.

Lemma nve_update_analytics sid recs now :
  no_validation_error (update_analytics_from_progress sid recs now).
Proof.
  apply nve_bind; [apply nve_get_by_session_id|]. intros [a|]; [|apply nve_raise; discriminate].
  apply nve_bind; [apply nve_modify|]. intros _. apply nve_ret.
Qed.

Lemma nve_get_next_step stid st : no_validation_error (get_next_step stid st).
Proof.
  apply nve_bind; [apply nve_gets|].
  intros [c|]; [apply nve_raise; discriminate|apply nve_ret].
Qed.

Lemma submit_step_data_nve req now : no_validation_error (submit_step_data req now).
Proof.
  unfold submit_step_data.
  apply nve_bind; [apply nve_get_step_progress|].
  intros [p|]; [|apply nve_raise; discriminate].
  apply nve_bind.
  { destruct (SubmitStepDataRequest.time_spent req) as [t|];
      [destruct (t =? 0)|]; first [apply nve_calculate_time_spent|apply nve_ret]. }
  intros t. apply nve_bind; [apply nve_update_step_status|]. intros _.
  apply nve_bind; [apply nve_gets|]. intros _.
  apply nve_bind; [apply nve_get_next_step|]. intros next.
  apply nve_bind.
  { destruct next as [ns|]; [|apply nve_ret].
    apply nve_bind; [apply nve_update_step_status|]. intros _. apply nve_ret. }
  intros _. apply nve_bind; [apply nve_gets|]. intros all.
  apply nve_bind; [apply nve_update_analytics|]. intros _.
  destruct (length_Z all =? 0); [apply nve_raise; discriminate|apply nve_ret].
Qed.

End NoValidationError.

(** C1 (corrected): [submit_step_data] validates nothing.  When the
    session has a progress row for the submitted step, the call writes
    that row as [completed] with the submitted [step_data] (the write is
    committed even when the call fails afterwards), keeps [attempt_count]
    and [validation_errors] of every progress row, never raises
    [ValidationException], and a result it returns is valid with no
    errors, whatever the payload. *)
Theorem submit_step_data_accepts_payload req now s p0
  (Hrow : filter (row_key (SubmitStepDataRequest.session_id req)
                          (SubmitStepDataRequest.step_id req)) (progress s) = [p0]) :
  let s' := fst (submit_step_data req now s) in
  submitted_row_done (SubmitStepDataRequest.session_id req)
    (SubmitStepDataRequest.step_id req) (SubmitStepDataRequest.step_data req)
    (progress s') /\
  map StepProgress.attempt_count (progress s') = map StepProgress.attempt_count (progress s) /\
  map StepProgress.validation_errors (progress s')
    = map StepProgress.validation_errors (progress s) /\
  snd (submit_step_data req now s) <> Err ValidationException /\
  (forall r, snd (submit_step_data req now s) = Ok r ->
     SubmitResult.is_valid r = true /\ SubmitResult.errors r = []).
Proof.
  intros s'.
  destruct (submit_step_data_progress_after req now s p0 Hrow)
    as (u & Hs & Hd & Ha & Hv & _ & Hp).
  unfold s'. rewrite Hp.
  destruct (map_rows_counters (row_key (SubmitStepDataRequest.session_id req)
              (SubmitStepDataRequest.step_id req)) _ (progress s) Ha Hv) as [Hc1 Hc2].
  split; [apply submitted_row_done_after_update with p0; assumption|].
  split; [exact Hc1|]. split; [exact Hc2|]. split; [apply submit_step_data_nve|].
  intros r Hr.
  assert (H : submit_step_data req now s = (fst (submit_step_data req now s), Ok r))
    by (rewrite <- Hr; apply surjective_pairing).
  destruct (submit_step_data_ok _ _ _ _ _ H) as (p1 & u1 & a & _ & _ & _ & _ & _ & ->).
  split; reflexivity.
Qed.

Section SortByMore.
Context {A : Type} (key : A -> Z).

Lemma sort_by_strongly_sorted l :
  StronglySorted (fun a b => key a <= key b) (sort_by key l).
Proof.
  apply Sorted_StronglySorted; [intros x y z; lia|]. apply sort_by_sorted.
Qed.


Lemma find_sorted_first (f : A -> bool) l p :
  StronglySorted (fun a b => key a <= key b) l -> find f l = Some p ->
  forall q, In q l -> f q = true -> key p <= key q.
Proof.
  induction 1 as [|x r Hs IH Hf]; simpl; [discriminate|].
  destruct (f x) eqn:Ex.
  - intro E. injection E as <-. intros q [<-|Hq] _; [lia|].
    rewrite Forall_forall in Hf. apply Hf, Hq.
  - intros E q [<-|Hq] Hfq; [congruence|]. apply IH; assumption.
Qed.

Lemma last_opt_sorted l p :
  StronglySorted (fun a b => key a <= key b) l -> last_opt l = Some p ->
  In p l /\ forall q, In q l -> key q <= key p.
Proof.
  induction 1 as [|x r Hs IH Hf]; [discriminate|].
  destruct r as [|y r'].
  - simpl. intro E. injection E as <-. split; [left; reflexivity|].
    intros q [<-|[]]. lia.
  - intro E. change (last_opt (y :: r') = Some p) in E.
    destruct (IH E) as [Hin Hle]. split; [right; exact Hin|].
    rewrite Forall_forall in Hf.
    intros q [<-|Hq]; [apply Hf, Hin|apply Hle, Hq].
Qed.
End SortByMore.

Lemma last_opt_nonempty {A} (l : list A) :
  l <> [] -> exists p, last_opt l = Some p.
Proof.
  induction l as [|x r IH]; intro H; [congruence|].
  destruct r as [|y r']; [exists x; reflexivity|].
  apply IH. discriminate.
Qed.

(** *** StepCatalog *)

(** X1: [get_next_step] and [get_previous_step] change no table; for an
    id that is not in the catalog both return [None], and for a step of
    the catalog both raise [ProgrammingError] from the step query. *)
Theorem step_navigation_outcome stid st s :
  (get_step_by_id (steps s) stid = None ->
     get_next_step stid st s = (s, Ok None) /\
     get_previous_step stid st s = (s, Ok None)) /\
  (forall cur, get_step_by_id (steps s) stid = Some cur ->
     get_next_step stid st s = (s, Err ProgrammingError) /\
     get_previous_step stid st s = (s, Err ProgrammingError)).
Proof.
  rewrite get_next_step_unfold, get_previous_step_unfold.
  split; [intro H|intros cur H]; rewrite H; split; reflexivity.
Qed.

(** *** ProgressTracker *)

Lemma get_session_progress_In tbl sid p :
  In p (get_session_progress_pure tbl sid) <->
  In p tbl /\ StepProgress.submission_id p = Some sid.
Proof.
  unfold get_session_progress_pure. split.
  - intro H. apply (Permutation_in _ (sort_by_perm _ _)), filter_In in H as [Hin Hs].
    split; [exact Hin|]. unfold in_session in Hs.
    destruct (StepProgress.submission_id p) as [x|]; [|discriminate].
    apply String.eqb_eq in Hs. congruence.
  - intros [Hin Hs]. apply (Permutation_in _ (Permutation_sym (sort_by_perm _ _))), filter_In.
    split; [exact Hin|]. unfold in_session. rewrite Hs. apply String.eqb_refl.
Qed.

(** X4: [get_session_progress] returns exactly the session's rows, each
    once, ascending by [step_number]; a session without rows gives []. *)
Theorem get_session_progress_spec tbl sid :
  Permutation (get_session_progress_pure tbl sid) (filter (in_session sid) tbl) /\
  Sorted (fun a b => StepProgress.step_number a <= StepProgress.step_number b)
    (get_session_progress_pure tbl sid) /\
  (forall p, In p (get_session_progress_pure tbl sid) <->
     In p tbl /\ StepProgress.submission_id p = Some sid).
Proof.
  split; [apply sort_by_perm|]. split; [apply sort_by_sorted|].
  apply get_session_progress_In.
Qed.

Lemma update_step_status_no_row sid stid st kw now s :
  (forall p, In p (progress s) -> row_key sid stid p = false) ->
  update_step_status sid stid st kw now s = (s, Err NotFoundError).
Proof.
  intro H. apply filter_nil_iff in H.
  unfold update_step_status, bind, get_step_progress, scalar_one_or_none. cbv beta.
  rewrite H. reflexivity.
Qed.

Lemma update_step_status_run sid stid st kw now s s' p' :
  update_step_status sid stid st kw now s = (s', Ok p') ->
  exists p u,
    filter (row_key sid stid) (progress s) = [p] /\
    ProgressUpdate.status u = Some st /\
    p' = apply_progress_update u p /\
    s' = mkStore (steps s) (map_rows (row_key sid stid) u (progress s)) (analytics s).
Proof.
  unfold update_step_status, bind, get_step_progress, scalar_one_or_none.
  destruct (filter (row_key sid stid) (progress s)) as [|p [|p1 r]] eqn:F;
    simpl; intro H; inversion H; subst; clear H.
  do 2 eexists. split; [reflexivity|]. split; [|split].
  2: reflexivity.
  all: reflexivity.
Qed.

(** X5: [update_step_status] on a session and step without a progress row
    raises [NotFoundError] and changes no table. *)
Theorem update_step_status_missing_row sid stid st kw now s
  (Hnone : forall p, In p (progress s) -> row_key sid stid p = false) :
  update_step_status sid stid st kw now s = (s, Err NotFoundError).
Proof. apply update_step_status_no_row. exact Hnone. Qed.

(** X6: a successful [update_step_status] writes only the row of the
    given session and step: the step catalog, the analytics table and every
    other progress row are kept, no row is added or removed, and the
    returned row is the stored one, with the new status. *)
Theorem update_step_status_frame sid stid st kw now s s' p'
  (Hrun : update_step_status sid stid st kw now s = (s', Ok p')) :
  steps s' = steps s /\ analytics s' = analytics s /\
  List.length (progress s') = List.length (progress s) /\
  (forall q, In q (progress s) -> row_key sid stid q = false -> In q (progress s')) /\
  In p' (progress s') /\ row_key sid stid p' = true /\ StepProgress.status p' = st /\
  (forall q, In q (progress s') -> row_key sid stid q = true -> q = p').
Proof.
  destruct (update_step_status_run _ _ _ _ _ _ _ _ Hrun) as (p & u & F & Hs & -> & ->).
  destruct (filter_singleton_in _ _ _ F) as [Hin Hk]. simpl.
  split; [reflexivity|]. split; [reflexivity|].
  split; [unfold map_rows; apply length_map|].
  split; [intros q Hq Hkq; apply map_rows_In_other; assumption|].
  split; [apply map_rows_In_updated; assumption|].
  split; [rewrite row_key_apply; exact Hk|].
  split; [unfold apply_progress_update; simpl; rewrite Hs; reflexivity|].
  intros q Hq Hkq. apply map_rows_In_inv in Hq as (p0 & Hp0 & ->).
  destruct (row_key sid stid p0) eqn:E.
  - rewrite (filter_singleton_unique _ _ _ _ F Hp0 E). reflexivity.
  - congruence.
Qed.

(** X7: the timestamp of the phase being entered is set to [now] only when
    the row does not have one yet and the caller passes none: entering
    [in_progress], [completed] or [error] keeps an existing [started_at],
    [completed_at] or [exited_at]; the timestamps of the other phases are
    left as they were unless passed. *)
Theorem update_step_status_phase_timestamps sid stid st kw now s s' p p'
  (Hrow : filter (row_key sid stid) (progress s) = [p])
  (Hrun : update_step_status sid stid st kw now s = (s', Ok p')) :
  (st = StepStatus.IN_PROGRESS -> ProgressUpdate.started_at kw = None ->
     StepProgress.started_at p' = Some (pick (StepProgress.started_at p) now)) /\
  (st = StepStatus.COMPLETED -> ProgressUpdate.completed_at kw = None ->
     StepProgress.completed_at p' = Some (pick (StepProgress.completed_at p) now)) /\
  (st = StepStatus.ERROR -> ProgressUpdate.exited_at kw = None ->
     StepProgress.exited_at p' = Some (pick (StepProgress.exited_at p) now)) /\
  (st <> StepStatus.IN_PROGRESS -> ProgressUpdate.started_at kw = None ->
     StepProgress.started_at p' = StepProgress.started_at p) /\
  (st <> StepStatus.COMPLETED -> ProgressUpdate.completed_at kw = None ->
     StepProgress.completed_at p' = StepProgress.completed_at p) /\
  (st <> StepStatus.ERROR -> ProgressUpdate.exited_at kw = None ->
     StepProgress.exited_at p' = StepProgress.exited_at p).
Proof.
  unfold update_step_status, bind, get_step_progress, scalar_one_or_none in Hrun.
  cbv beta in Hrun. rewrite Hrow in Hrun. simpl in Hrun.
  inversion Hrun; subst; clear Hrun.
  destruct kw as [k1 k2 k3 k4 k5 k6 k7 k8 k9 k10].
  destruct p as [a1 a2 a3 a4 a5 a6 a7 a8 a9 a10 a11 a12 a13 a14]; simpl.
  destruct st, a9, a10, a14; simpl;
    repeat split; intros E1 E2; try discriminate E1; try congruence; subst; reflexivity.
Qed.

(** X8: [calculate_time_spent] never changes a table and never fails: it
    is [0] when the row is missing (or duplicated) or not started, and
    otherwise [completed_at] minus [started_at], else [exited_at] minus
    [started_at]; with neither end time it is [0] (the aware timestamps
    cannot be subtracted from [utcnow()]). *)
Theorem calculate_time_spent_spec sid stid now s :
  exists t, calculate_time_spent sid stid now s = (s, Ok t) /\
    ((forall p, filter (row_key sid stid) (progress s) <> [p]) -> t = 0) /\
    (forall p, filter (row_key sid stid) (progress s) = [p] ->
       StepProgress.started_at p = None -> t = 0) /\
    (forall p t0 c, filter (row_key sid stid) (progress s) = [p] ->
       StepProgress.started_at p = Some t0 -> StepProgress.completed_at p = Some c ->
       t = c - t0) /\
    (forall p t0 e, filter (row_key sid stid) (progress s) = [p] ->
       StepProgress.started_at p = Some t0 -> StepProgress.completed_at p = None ->
       StepProgress.exited_at p = Some e -> t = e - t0) /\
    (forall p t0, filter (row_key sid stid) (progress s) = [p] ->
       StepProgress.started_at p = Some t0 -> StepProgress.completed_at p = None ->
       StepProgress.exited_at p = None -> t = 0).
Proof.
  unfold calculate_time_spent, get_step_progress, scalar_one_or_none.
  destruct (filter (row_key sid stid) (progress s)) as [|p [|p1 r]] eqn:F; simpl.
  - exists 0. split; [reflexivity|]. split; [auto|].
    repeat split; intros; discriminate.
  - destruct (StepProgress.started_at p) as [t0|] eqn:Es;
      [destruct (StepProgress.completed_at p) as [c|] eqn:Ec;
       [|destruct (StepProgress.exited_at p) as [e|] eqn:Ee]|];
      eexists; (split; [reflexivity|]);
      (split; [intro H; exfalso; apply (H p); reflexivity|]);
      repeat split; intros;
      repeat match goal with H : [_] = [_] |- _ => injection H as <- end;
      congruence.
  - exists 0. split; [reflexivity|]. split; [auto|].
    repeat split; intros; discriminate.
Qed.

(** *** FlowSession: starting a flow *)

(** X9: [start_flow] fails on every store, for every service type: the
    step query raises [ProgrammingError] before any row is created, so no
    table changes and the start endpoint answers 500. *)
Theorem start_flow_always_fails session_id st now s :
  start_flow session_id st now s = (s, Err ProgrammingError) /\
  start_endpoint_status (snd (start_flow session_id st now s)) = 500.
Proof. split; reflexivity. Qed.

(** *** AnalyticsAggregator *)

Lemma status_counts_le recs :
  (List.length (filter (has_status StepStatus.COMPLETED) recs) +
   List.length (filter (has_status StepStatus.SKIPPED) recs) +
   List.length (filter (has_status StepStatus.ERROR) recs) <= List.length recs)%nat.
Proof.
  induction recs as [|p r IH]; simpl; [lia|].
  destruct (has_status StepStatus.COMPLETED p) eqn:E1,
           (has_status StepStatus.SKIPPED p) eqn:E2,
           (has_status StepStatus.ERROR p) eqn:E3; simpl; try lia;
    unfold has_status in *; destruct (StepProgress.status p); discriminate.
Qed.

Lemma count_status_le st recs : count_status st recs <= length_Z recs.
Proof.
  unfold count_status, length_Z. pose proof (filter_length_le (has_status st) recs). lia.
Qed.

Lemma sum_Z_nonneg {A} (f : A -> Z) l :
  (forall x, In x l -> 0 <= f x) -> 0 <= sum_Z f l.
Proof.
  induction l as [|x r IH]; simpl; intro H; [lia|].
  pose proof (H x (or_introl eq_refl)).
  assert (0 <= sum_Z f r) by (apply IH; intros y Hy; apply H; right; exact Hy).
  unfold sum_Z in *. simpl. lia.
Qed.

(** X10: [update_analytics_from_progress] for a session without an
    Analytics row raises [NotFoundError] and changes no table. *)
Theorem update_analytics_missing_row sid recs now s
  (Hnone : forall a, In a (analytics s) -> Analytics.session_id a <> sid) :
  update_analytics_from_progress sid recs now s = (s, Err NotFoundError).
Proof.
  assert (F : filter (fun a => String.eqb (Analytics.session_id a) sid) (analytics s) = []).
  { apply filter_nil_iff. intros a Ha. apply String.eqb_neq, Hnone, Ha. }
  unfold update_analytics_from_progress, bind, get_by_session_id, scalar_one_or_none.
  cbv beta. rewrite F. reflexivity.
Qed.

(** X11: after a successful [update_analytics_from_progress] the status
    counters are non-negative and add up to at most the number of
    records; [error_count] is the sum of [attempt_count - 1] over the
    records (non-negative when every record has been attempted at least
    once); [back_navigation_count] is non-negative; the steps and progress tables are untouched and no Analytics row is
    added or removed. *)
Theorem update_analytics_counters sid recs now s s' a
  (Hrun : update_analytics_from_progress sid recs now s = (s', Ok a)) :
  0 <= Analytics.completed_steps a /\ 0 <= Analytics.skipped_steps a /\
  0 <= Analytics.error_steps a /\
  Analytics.completed_steps a + Analytics.skipped_steps a + Analytics.error_steps a
    <= length_Z recs /\
  Analytics.error_count a = sum_Z (fun p => StepProgress.attempt_count p - 1) recs /\
  ((forall p, In p recs -> 1 <= StepProgress.attempt_count p) ->
     0 <= Analytics.error_count a) /\
  0 <= Analytics.back_navigation_count a /\
  steps s' = steps s /\ progress s' = progress s /\
  List.length (analytics s') = List.length (analytics s).
Proof.
  destruct (update_analytics_from_progress_run _ _ _ _ _ _ Hrun) as (a0 & _ & -> & ->).
  unfold analytics_from_progress; simpl.
  pose proof (status_counts_le recs).
  unfold count_status, length_Z.
  split; [lia|]. split; [lia|]. split; [lia|]. split; [lia|].
  split; [reflexivity|].
  split; [intro Ha; apply sum_Z_nonneg; intros p Hp; specialize (Ha p Hp); lia|].
  split; [apply sum_Z_nonneg; intros p _; unfold length_Z; lia|].
  split; [reflexivity|]. split; [reflexivity|].
  apply length_map.
Qed.

Lemma StepName_eqb_eq a b : StepName.eqb a b = true <-> a = b.
Proof. destruct a, b; simpl; split; congruence. Qed.

Lemma ConversionStatus_eqb_eq a b : ConversionStatus.eqb a b = true <-> a = b.
Proof. destruct a, b; simpl; split; congruence. Qed.

Lemma option_StepName_eqb_eq x y : option_eqb StepName.eqb x y = true <-> x = y.
Proof.
  destruct x as [a|], y as [b|]; simpl; try (split; congruence).
  rewrite StepName_eqb_eq. split; congruence.
Qed.

(** The comparison deciding whether [update_analytics_from_progress]
    changes a column: it holds exactly when the row written with the new
    values and the old [updated_at] is the old row. *)
Lemma analytics_fields_eqb c sk e t v f sl r cs b er (a : Analytics.t) :
  (c =? Analytics.completed_steps a) && (sk =? Analytics.skipped_steps a) &&
  (e =? Analytics.error_steps a) && (t =? Analytics.total_time_spent a) &&
  (v =? Analytics.average_step_time a) &&
  option_eqb StepName.eqb f (Analytics.fastest_step a) &&
  option_eqb StepName.eqb sl (Analytics.slowest_step a) &&
  (r =? Analytics.completion_rate a) &&
  ConversionStatus.eqb cs (Analytics.conversion_status a) &&
  (b =? Analytics.back_navigation_count a) && (er =? Analytics.error_count a) = true <->
  Analytics.mk (Analytics.session_id a) (Analytics.total_steps a) c sk e t v f sl r cs b er
    (Analytics.created_at a) (Analytics.updated_at a) = a.
Proof.
  destruct a as [sid tot c0 sk0 e0 t0 v0 f0 sl0 r0 cs0 b0 er0 cr up]; simpl.
  rewrite !andb_true_iff, !Z.eqb_eq, !option_StepName_eqb_eq, ConversionStatus_eqb_eq.
  split.
  - intros [[[[[[[[[[-> ->] ->] ->] ->] ->] ->] ->] ->] ->] ->]. reflexivity.
  - intro H. injection H as -> -> -> -> -> -> -> -> -> -> ->. tauto.
Qed.

(** X3: [update_analytics_from_progress] writes the session's one
    Analytics row; [updated_at] keeps the old value or becomes [now]: it
    keeps it, and the row is left exactly as it was, when every
    recomputed column equals the stored one, and it becomes [now] as soon
    as one column changes. *)
Theorem update_analytics_updated_at sid recs now s s' a
  (Hrun : update_analytics_from_progress sid recs now s = (s', Ok a)) :
  exists a0,
    In a0 (analytics s) /\ Analytics.session_id a0 = sid /\
    (Analytics.updated_at a = Analytics.updated_at a0 \/ Analytics.updated_at a = now) /\
    (with_updated_at a (Analytics.updated_at a0) = a0 -> a = a0) /\
    (with_updated_at a (Analytics.updated_at a0) <> a0 -> Analytics.updated_at a = now).
Proof.
  destruct (update_analytics_from_progress_run _ _ _ _ _ _ Hrun) as (a0 & F & -> & _).
  destruct (filter_singleton_in _ _ _ F) as [Hin Hs].
  exists a0. split; [exact Hin|]. split; [apply String.eqb_eq; exact Hs|].
  unfold analytics_from_progress. cbv zeta.
  match goal with
  | |- context [if ?u then _ else now] => destruct u eqn:U
  end.
  - apply analytics_fields_eqb in U.
    split; [left; reflexivity|]. split; [intros _; exact U|].
    intro H. exfalso. apply H. exact U.
  - split; [right; reflexivity|]. split; [|intros _; reflexivity].
    intro H. exfalso. unfold with_updated_at in H. simpl in H.
    apply analytics_fields_eqb in H. congruence.
Qed.


(** X12: when there are no more records than [total_steps], the
    [completion_rate] written by [update_analytics_from_progress] lies
    between 0 and 100. *)
Theorem update_analytics_completion_rate_bounds sid recs now s s' a
  (Hrun : update_analytics_from_progress sid recs now s = (s', Ok a))
  (Hle : length_Z recs <= Analytics.total_steps a) :
  0 <= Analytics.completion_rate a <= 100.
Proof.
  destruct (update_analytics_from_progress_run _ _ _ _ _ _ Hrun) as (a0 & _ & -> & _).
  unfold analytics_from_progress in *; simpl in *.
  pose proof (count_status_le StepStatus.COMPLETED recs).
  pose proof (count_status_nonneg StepStatus.COMPLETED recs).
  destruct (0 <? Analytics.total_steps a0) eqn:E; [|lia].
  apply Z.ltb_lt in E. split.
  - apply Z.div_pos; lia.
  - apply Z.div_le_upper_bound; lia.
Qed.


(** X13: [submit_step_data] for a session and step without a progress row
    raises [NotFoundError], changes no table, and the endpoint answers
    404. *)
Theorem submit_step_data_missing_row req now s
  (Hnone : forall p, In p (progress s) ->
             row_key (SubmitStepDataRequest.session_id req)
                     (SubmitStepDataRequest.step_id req) p = false) :
  submit_step_data req now s = (s, Err NotFoundError) /\
  submit_endpoint_status (snd (submit_step_data req now s)) = 404.
Proof.
  apply filter_nil_iff in Hnone.
  assert (H : submit_step_data req now s = (s, Err NotFoundError)).
  { unfold submit_step_data, bind at 1, get_step_progress, scalar_one_or_none.
    cbv beta. rewrite Hnone. reflexivity. }
  rewrite H. split; reflexivity.
Qed.

(** X14: [submit_step_data], whatever its outcome, keeps the step
    catalog, neither adds nor removes a progress row, changes no row's
    session, step id or step number, and neither adds nor removes an
    Analytics row. *)
Theorem submit_step_data_keeps_rows req now s :
  let s' := fst (submit_step_data req now s) in
  steps s' = steps s /\
  map row_ident (progress s') = map row_ident (progress s) /\
  List.length (analytics s') = List.length (analytics s).
Proof.
  pose proof (submit_step_data_frame req now s) as H. cbv zeta in H |- *.
  destruct H as (Hst & Hp & Ha).
  split; [exact Hst|]. split.
  - destruct Hp as [-> | (p0 & u & _ & _ & ->)]; [reflexivity|apply map_rows_ident].
  - destruct Ha as [-> | (a0 & recs & _ & ->)]; [reflexivity|apply length_map].
Qed.

(** X15: when the submitted step is in the catalog, [submit_step_data]
    for a session with a progress row for it commits that row as
    [completed] with the submitted data and then raises
    [ProgrammingError] from [get_next_step]: the endpoint answers 500,
    the other progress rows, the catalog and the Analytics table are
    kept. *)
Theorem submit_step_data_catalog_step_fails req now s p0 cur
  (Hrow : filter (row_key (SubmitStepDataRequest.session_id req)
                          (SubmitStepDataRequest.step_id req)) (progress s) = [p0])
  (Hcat : get_step_by_id (steps s) (SubmitStepDataRequest.step_id req) = Some cur) :
  let sid := SubmitStepDataRequest.session_id req in
  let stid := SubmitStepDataRequest.step_id req in
  let s' := fst (submit_step_data req now s) in
  snd (submit_step_data req now s) = Err ProgrammingError /\
  submit_endpoint_status (snd (submit_step_data req now s)) = 500 /\
  submitted_row_done sid stid (SubmitStepDataRequest.step_data req) (progress s') /\
  (forall p, In p (progress s) -> row_key sid stid p = false -> In p (progress s')) /\
  steps s' = steps s /\ analytics s' = analytics s.
Proof.
  destruct (submit_step_data_run req now s p0 Hrow) as (u & Hs & Hd & _ & _ & Hrun).
  cbv zeta. rewrite Hrun. cbv zeta. rewrite Hcat. simpl.
  split; [reflexivity|]. split; [reflexivity|].
  split; [apply submitted_row_done_after_update with p0; assumption|].
  split; [intros p Hp Hk; apply map_rows_In_other; assumption|].
  split; reflexivity.
Qed.

(** X2: a successful [submit_step_data] concerns a step that is not in
    the catalog (for a catalog step [get_next_step] fails): the result is
    valid, without errors, with no next step and [can_proceed = false],
    and its [progress_percentage] is the share of the session's progress
    rows that are completed after the call, in percent, rounded down. *)
Theorem submit_step_data_success req now s s' r
  (Hrun : submit_step_data req now s = (s', Ok r)) :
  let all := get_session_progress_pure (progress s') (SubmitStepDataRequest.session_id req) in
  get_step_by_id (steps s) (SubmitStepDataRequest.step_id req) = None /\
  SubmitResult.is_valid r = true /\ SubmitResult.errors r = [] /\
  SubmitResult.next_step r = None /\ SubmitResult.can_proceed r = false /\
  length_Z all <> 0 /\
  SubmitResult.progress_percentage r
    = (count_status StepStatus.COMPLETED all * 100) / length_Z all.
Proof.
  destruct (submit_step_data_ok _ _ _ _ _ Hrun) as (p0 & u & a & _ & _ & Hcat & Ha & Hlen & ->).
  destruct (update_analytics_from_progress_run _ _ _ _ _ _ Ha) as (a0 & _ & _ & ->).
  cbv zeta. simpl.
  split; [exact Hcat|]. do 4 (split; [reflexivity|]). split; [exact Hlen|]. reflexivity.
Qed.

(** *** FlowSession: the completion rate across submissions *)

Lemma filter_perm {A} (f : A -> bool) l l' :
  Permutation l l' -> Permutation (filter f l) (filter f l').
Proof.
  induction 1 as [|x l l' _ IH|x y l|l l' l'' _ IH1 _ IH2]; simpl.
  - constructor.
  - destruct (f x); [constructor|]; exact IH.
  - destruct (f x), (f y); try constructor; reflexivity.
  - etransitivity; eassumption.
Qed.

Lemma count_status_perm st l l' :
  Permutation l l' -> count_status st l = count_status st l'.
Proof.
  intro H. unfold count_status. f_equal. apply Permutation_length, filter_perm, H.
Qed.

Lemma length_Z_perm {A} (l l' : list A) : Permutation l l' -> length_Z l = length_Z l'.
Proof. intro H. unfold length_Z. f_equal. apply Permutation_length, H. Qed.

Lemma length_Z_nonneg {A} (l : list A) : 0 <= length_Z l.
Proof. unfold length_Z. lia. Qed.

Lemma filter_in_session_map_rows sid k u tbl :
  filter (in_session sid) (map_rows k u tbl) = map_rows k u (filter (in_session sid) tbl).
Proof.
  induction tbl as [|p r IH]; [reflexivity|].
  unfold map_rows in *. cbn [map filter].
  destruct (k p) eqn:Ek; rewrite ?in_session_apply;
    destruct (in_session sid p); cbn [map]; rewrite ?Ek, IH; reflexivity.
Qed.

(** Completing rows never lowers the number of completed rows. *)
Lemma count_completed_map_rows k u tbl :
  ProgressUpdate.status u = Some StepStatus.COMPLETED ->
  count_status StepStatus.COMPLETED tbl
    <= count_status StepStatus.COMPLETED (map_rows k u tbl).
Proof.
  intro Hs. unfold count_status. apply Nat2Z.inj_le.
  induction tbl as [|p r IH]; [constructor|].
  unfold map_rows in *. cbn [map filter].
  destruct (k p).
  - assert (E : has_status StepStatus.COMPLETED (apply_progress_update u p) = true)
      by (unfold has_status, apply_progress_update; simpl; rewrite Hs; reflexivity).
    rewrite E. destruct (has_status StepStatus.COMPLETED p); simpl; lia.
  - destruct (has_status StepStatus.COMPLETED p); simpl; lia.
Qed.

(** One submission, whatever its outcome: the session's Analytics rows
    keep their [total_steps], the session keeps its number of progress
    rows and does not lose a completed one. *)
Lemma submit_step_data_session_inv sid T req now s :
  (forall a, In a (analytics s) -> Analytics.session_id a = sid -> Analytics.total_steps a = T) ->
  let s' := fst (submit_step_data req now s) in
  (forall a, In a (analytics s') -> Analytics.session_id a = sid -> Analytics.total_steps a = T) /\
  length_Z (filter (in_session sid) (progress s'))
    = length_Z (filter (in_session sid) (progress s)) /\
  count_status StepStatus.COMPLETED (filter (in_session sid) (progress s))
    <= count_status StepStatus.COMPLETED (filter (in_session sid) (progress s')).
Proof.
  intros Hinv s'.
  pose proof (submit_step_data_frame req now s) as H. cbv zeta in H.
  destruct H as (_ & Hp & Ha). fold s' in Hp, Ha. split; [|split].
  - destruct Ha as [-> | (a0 & recs & Fa & ->)]; [exact Hinv|].
    intros b' Hb' Hsb'. apply in_map_iff in Hb' as (b & Eb & Hb).
    destruct (String.eqb (Analytics.session_id b) (SubmitStepDataRequest.session_id req)) eqn:E.
    + subst b'. destruct (filter_singleton_in _ _ _ Fa) as [Hin0 Hs0].
      exact (Hinv a0 Hin0 Hsb').
    + subst b'. apply Hinv; assumption.
  - destruct Hp as [-> | (p0 & u & _ & _ & ->)]; [reflexivity|].
    rewrite filter_in_session_map_rows. unfold length_Z, map_rows. rewrite length_map.
    reflexivity.
  - destruct Hp as [-> | (p0 & u & _ & Hs & ->)]; [lia|].
    rewrite filter_in_session_map_rows. apply count_completed_map_rows, Hs.
Qed.

Lemma submits_inv sid T s0 s :
  submits sid s0 s ->
  (forall a, In a (analytics s0) -> Analytics.session_id a = sid -> Analytics.total_steps a = T) ->
  (forall a, In a (analytics s) -> Analytics.session_id a = sid -> Analytics.total_steps a = T) /\
  length_Z (filter (in_session sid) (progress s))
    = length_Z (filter (in_session sid) (progress s0)) /\
  count_status StepStatus.COMPLETED (filter (in_session sid) (progress s0))
    <= count_status StepStatus.COMPLETED (filter (in_session sid) (progress s)).
Proof.
  induction 1 as [s|req now s s1 r s2 Hsid Hsub Hs IH]; intro Hinv.
  - split; [exact Hinv|]. split; [reflexivity|lia].
  - pose proof (submit_step_data_session_inv sid T req now s Hinv) as H.
    cbv zeta in H. rewrite Hsub in H. simpl in H. destruct H as (Hinv1 & Hlen1 & Hc1).
    destruct (IH Hinv1) as (Hinv2 & Hlen2 & Hc2).
    split; [exact Hinv2|]. split; lia.
Qed.

(** A successful submission in the session: the session's one Analytics
    row afterwards has the completion rate of the session's completed
    rows over [total_steps], and the result their share of the session's
    rows. *)
Lemma submit_step_data_ok_rate sid T req now s s' r :
  (forall a, In a (analytics s) -> Analytics.session_id a = sid -> Analytics.total_steps a = T) ->
  SubmitStepDataRequest.session_id req = sid ->
  submit_step_data req now s = (s', Ok r) ->
  let c := count_status StepStatus.COMPLETED (filter (in_session sid) (progress s')) in
  let n := length_Z (filter (in_session sid) (progress s')) in
  n <> 0 /\
  SubmitResult.progress_percentage r = c * 100 / n /\
  exists a, In a (analytics s') /\ Analytics.session_id a = sid /\
    (forall b, In b (analytics s') -> Analytics.session_id b = sid -> b = a) /\
    Analytics.completion_rate a = (if 0 <? T then c * 100 / T else 0).
Proof.
  intros Hinv Hsid Hrun. cbv zeta.
  destruct (submit_step_data_ok _ _ _ _ _ Hrun) as (p0 & u & a & _ & _ & _ & Ha & Hlen & ->).
  destruct req as [sid1 stid data ts].
  cbn [SubmitStepDataRequest.session_id SubmitStepDataRequest.step_id] in *. subst sid1.
  cbv zeta in Ha, Hlen. cbn [progress] in Ha, Hlen |- *.
  destruct (update_analytics_from_progress_row _ _ _ _ _ _ Ha) as [Hin Huniq].
  destruct (update_analytics_from_progress_run _ _ _ _ _ _ Ha) as (a0 & Fa & Ea & Es').
  destruct (filter_singleton_in _ _ _ Fa) as [Hin0 Hs0]. apply String.eqb_eq in Hs0.
  assert (Hp : progress s' = map_rows (row_key sid stid) u (progress s))
    by (rewrite Es'; reflexivity).
  set (all := get_session_progress_pure (map_rows (row_key sid stid) u (progress s)) sid)
    in *.
  assert (Hperm : Permutation all (filter (in_session sid) (progress s'))).
  { rewrite Hp. apply sort_by_perm. }
  rewrite <- (count_status_perm _ _ _ Hperm), <- (length_Z_perm _ _ Hperm).
  split; [exact Hlen|]. split; [reflexivity|].
  exists a. split; [exact Hin|]. split; [rewrite Ea; exact Hs0|]. split; [exact Huniq|].
  rewrite Ea. rewrite <- (Hinv a0 Hin0 Hs0). reflexivity.
Qed.

(** C9: for a session whose Analytics rows have [total_steps = T] and
    which has at most [T] progress rows (as [start_flow] would create
    them), after any sequence of submissions for the session, a
    successful [submit_step_data] returns a [progress_percentage] in
    [0, 100] and leaves the session with one Analytics row, whose
    [completion_rate] is in [0, 100] and is at most the
    [completion_rate] left by any later successful submission for the
    session. *)
Theorem submit_step_data_rate_bounds_monotone sid T s0
  (Htotal : forall a, In a (analytics s0) -> Analytics.session_id a = sid ->
              Analytics.total_steps a = T)
  (Hrows : length_Z (filter (in_session sid) (progress s0)) <= T) :
  forall s req now s' r,
    submits sid s0 s ->
    SubmitStepDataRequest.session_id req = sid ->
    submit_step_data req now s = (s', Ok r) ->
    0 <= SubmitResult.progress_percentage r <= 100 /\
    exists a, In a (analytics s') /\ Analytics.session_id a = sid /\
      (forall b, In b (analytics s') -> Analytics.session_id b = sid -> b = a) /\
      0 <= Analytics.completion_rate a <= 100 /\
      (forall s1 req1 now1 s2 r1,
         submits sid s' s1 ->
         SubmitStepDataRequest.session_id req1 = sid ->
         submit_step_data req1 now1 s1 = (s2, Ok r1) ->
         exists a2, In a2 (analytics s2) /\ Analytics.session_id a2 = sid /\
           (forall b, In b (analytics s2) -> Analytics.session_id b = sid -> b = a2) /\
           Analytics.completion_rate a <= Analytics.completion_rate a2).
Proof.
  intros s req now s' r Hs Hsid Hrun.
  destruct (submits_inv sid T s0 s Hs Htotal) as (Hinv & Hlen & _).
  pose proof (submit_step_data_session_inv sid T req now s Hinv) as H.
  cbv zeta in H. rewrite Hrun in H. simpl in H. destruct H as (Hinv' & Hlen' & _).
  pose proof (submit_step_data_ok_rate sid T req now s s' r Hinv Hsid Hrun) as H.
  cbv zeta in H. destruct H as (Hn & Hpct & a & Hin & Hsa & Huniq & Hrate).
  set (c := count_status StepStatus.COMPLETED (filter (in_session sid) (progress s'))) in *.
  set (n := length_Z (filter (in_session sid) (progress s'))) in *.
  assert (Hc0 : 0 <= c) by apply count_status_nonneg.
  assert (Hcn : c <= n) by apply count_status_le.
  assert (Hn0 : 0 < n) by (pose proof (length_Z_nonneg (filter (in_session sid) (progress s')));
                           fold n in H; lia).
  assert (HnT : n <= T) by lia.
  split.
  { rewrite Hpct. split; [apply Z.div_pos; lia|].
    apply Z.div_le_upper_bound; lia. }
  exists a. split; [exact Hin|]. split; [exact Hsa|]. split; [exact Huniq|]. split.
  { rewrite Hrate. destruct (0 <? T) eqn:ET; [apply Z.ltb_lt in ET|lia].
    split; [apply Z.div_pos; lia|]. apply Z.div_le_upper_bound; lia. }
  intros s1 req1 now1 s2 r1 Hs1 Hsid1 Hrun1.
  destruct (submits_inv sid T s' s1 Hs1 Hinv') as (Hinv1 & _ & Hc1).
  pose proof (submit_step_data_session_inv sid T req1 now1 s1 Hinv1) as H.
  cbv zeta in H. rewrite Hrun1 in H. simpl in H. destruct H as (_ & _ & Hc2).
  pose proof (submit_step_data_ok_rate sid T req1 now1 s1 s2 r1 Hinv1 Hsid1 Hrun1) as H.
  cbv zeta in H. destruct H as (_ & _ & a2 & Hin2 & Hsa2 & Huniq2 & Hrate2).
  exists a2. split; [exact Hin2|]. split; [exact Hsa2|]. split; [exact Huniq2|].
  rewrite Hrate, Hrate2. destruct (0 <? T) eqn:ET; [apply Z.ltb_lt in ET|lia].
  apply Z.div_le_mono; [exact ET|]. fold c in Hc1. lia.
Qed.

(** X16: [submit_step_data] never raises [ValidationException], whatever
    the payload and the tables: the submit endpoint never answers 422. *)
Theorem submit_step_data_never_422 req now s :
  snd (submit_step_data req now s) <> Err ValidationException /\
  submit_endpoint_status (snd (submit_step_data req now s)) <> 422.
Proof.
  pose proof (submit_step_data_nve req now s) as H. split; [exact H|].
  destruct (snd (submit_step_data req now s)) as [r|[]]; simpl; try discriminate.
  exfalso. apply H. reflexivity.
Qed.


(** *** FlowSession: reading the state *)

Lemma dict_get_set_same d k v : dict_get (dict_set d k v) k = Some v.
Proof.
  induction d as [|[k' v'] r IH]; simpl; [rewrite String.eqb_refl; reflexivity|].
  destruct (String.eqb k k') eqn:E; simpl; rewrite ?String.eqb_refl; [reflexivity|].
  rewrite E. exact IH.
Qed.

Lemma dict_get_set_other d k v k' :
  k' <> k -> dict_get (dict_set d k v) k' = dict_get d k'.
Proof.
  intro Hne. induction d as [|[k1 v1] r IH]; simpl.
  - apply String.eqb_neq in Hne. rewrite Hne. reflexivity.
  - destruct (String.eqb k k1) eqn:E; simpl.
    + apply String.eqb_eq in E. subst k1.
      apply String.eqb_neq in Hne. rewrite Hne. reflexivity.
    + rewrite IH. reflexivity.
Qed.

Lemma dict_get_notin d k : ~ In k (map fst d) -> dict_get d k = None.
Proof.
  induction d as [|[k1 v1] r IH]; simpl; intro H; [reflexivity|].
  destruct (String.eqb k k1) eqn:E.
  - apply String.eqb_eq in E. subst. tauto.
  - apply IH. tauto.
Qed.

(** [dict.update]: the new object's keys win. *)
Lemma dict_get_update d e k :
  NoDup (map fst e) ->
  dict_get (dict_update d e) k =
  match dict_get e k with Some v => Some v | None => dict_get d k end.
Proof.
  unfold dict_update. revert d.
  induction e as [|[k1 v1] e' IH]; intros d Hnd; simpl; [reflexivity|].
  inversion Hnd as [|? ? Hnin Hnd']; subst.
  rewrite (IH _ Hnd').
  destruct (String.eqb k k1) eqn:E.
  - apply String.eqb_eq in E. subst k1.
    rewrite (dict_get_notin _ _ Hnin). apply dict_get_set_same.
  - destruct (dict_get e' k); [reflexivity|].
    apply dict_get_set_other. apply String.eqb_neq. exact E.
Qed.

Lemma form_data_get rows acc k :
  (forall p d, In p rows -> StepProgress.step_data p = Some d -> NoDup (map fst d)) ->
  dict_get (fold_left (fun acc p =>
              match StepProgress.step_data p with
              | Some d => match d with [] => acc | _ => dict_update acc d end
              | None => acc
              end) rows acc) k =
  fold_left (fun acc p => match dict_get (pick (StepProgress.step_data p) []) k with
                          | Some v => Some v | None => acc end) rows (dict_get acc k).
Proof.
  revert acc. induction rows as [|p r IH]; intros acc Hk; simpl; [reflexivity|].
  rewrite IH by (intros q d Hq; apply Hk; right; exact Hq).
  f_equal.
  destruct (StepProgress.step_data p) as [d|] eqn:Ed; simpl; [|reflexivity].
  destruct d as [|kv d']; [reflexivity|].
  rewrite dict_get_update; [reflexivity|].
  apply (Hk p); [left; reflexivity|exact Ed].
Qed.

Lemma get_flow_state_some session_id s fs :
  snd (get_flow_state session_id s) = Ok (Some fs) ->
  exists a,
    filter (fun b => String.eqb (Analytics.session_id b) session_id) (analytics s) = [a] /\
    let rows := get_session_progress_pure (progress s) session_id in
    let current_progress :=
      match find (has_status StepStatus.IN_PROGRESS) rows with
      | Some p => Some p
      | None => last_opt rows
      end in
    FlowState.current_step fs =
      match current_progress with Some p => StepProgress.step_number p | None => 1 end /\
    FlowState.current_step_name fs =
      match current_progress with
      | Some p => StepProgress.step_name p
      | None => StepName.SERVICE_SELECTION end /\
    FlowState.form_data fs =
      fold_left (fun acc p =>
                   match StepProgress.step_data p with
                   | Some d => match d with [] => acc | _ => dict_update acc d end
                   | None => acc
                   end) rows [].
Proof.
  unfold get_flow_state, bind, get_by_session_id, scalar_one_or_none.
  destruct (filter _ (analytics s)) as [|a [|a1 r]] eqn:F; simpl; intro H;
    inversion H; subst; clear H.
  exists a. split; [reflexivity|]. simpl. auto.
Qed.

(** X17: [get_flow_state] changes no table; it returns [None], and the
    endpoint answers 404, exactly when the session has no Analytics row. *)
Theorem get_flow_state_read_only session_id s :
  fst (get_flow_state session_id s) = s /\
  (snd (get_flow_state session_id s) = Ok None <->
     forall a, In a (analytics s) -> Analytics.session_id a <> session_id) /\
  (flow_state_endpoint_status (snd (get_flow_state session_id s)) = 404 <->
     forall a, In a (analytics s) -> Analytics.session_id a <> session_id).
Proof.
  assert (Hiff : filter (fun b => String.eqb (Analytics.session_id b) session_id)
                   (analytics s) = [] <->
                 forall a, In a (analytics s) -> Analytics.session_id a <> session_id).
  { rewrite filter_nil_iff. split; intros H a Ha.
    - apply String.eqb_neq, H, Ha.
    - apply String.eqb_neq, H, Ha. }
  rewrite <- Hiff.
  unfold get_flow_state, bind, get_by_session_id, scalar_one_or_none.
  destruct (filter _ (analytics s)) as [|a [|a1 r]] eqn:F; simpl.
  - split; [reflexivity|]. split; split; reflexivity.
  - split; [reflexivity|]. split; split; discriminate.
  - split; [reflexivity|]. split; split; discriminate.
Qed.

(** X18: the [form_data] of the flow state maps each key to its value in
    the last of the session's rows (ascending [step_number]) whose
    [step_data] has the key: later steps override earlier ones. *)
Theorem get_flow_state_form_data session_id s fs k
  (Hrun : snd (get_flow_state session_id s) = Ok (Some fs))
  (Hkeys : forall p d, In p (progress s) -> StepProgress.step_data p = Some d ->
             NoDup (map fst d)) :
  dict_get (FlowState.form_data fs) k =
  fold_left (fun acc p => match dict_get (pick (StepProgress.step_data p) []) k with
                          | Some v => Some v | None => acc end)
            (get_session_progress_pure (progress s) session_id) None.
Proof.
  destruct (get_flow_state_some _ _ _ Hrun) as (a & _ & H). cbv zeta in H.
  destruct H as (_ & _ & ->).
  apply form_data_get. intros p d Hp. apply (Hkeys p d).
  apply get_session_progress_In in Hp. apply Hp.
Qed.

(** X19: the flow state's [current_step] is the [step_number] of the
    lowest-numbered [in_progress] row of the session; with no such row it
    is the highest [step_number] among the session's rows; with no row at
    all it is step 1, [service_selection]. *)
Theorem get_flow_state_current_step session_id s fs
  (Hrun : snd (get_flow_state session_id s) = Ok (Some fs)) :
  let rows := get_session_progress_pure (progress s) session_id in
  ((exists p, In p rows /\ StepProgress.status p = StepStatus.IN_PROGRESS) ->
     exists p, In p rows /\ StepProgress.status p = StepStatus.IN_PROGRESS /\
       FlowState.current_step fs = StepProgress.step_number p /\
       forall q, In q rows -> StepProgress.status q = StepStatus.IN_PROGRESS ->
         StepProgress.step_number p <= StepProgress.step_number q) /\
  ((forall p, In p rows -> StepProgress.status p <> StepStatus.IN_PROGRESS) ->
     rows <> [] ->
     exists p, In p rows /\ FlowState.current_step fs = StepProgress.step_number p /\
       forall q, In q rows -> StepProgress.step_number q <= StepProgress.step_number p) /\
  (rows = [] ->
     FlowState.current_step fs = 1 /\
     FlowState.current_step_name fs = StepName.SERVICE_SELECTION).
Proof.
  destruct (get_flow_state_some _ _ _ Hrun) as (a & _ & H). cbv zeta in *.
  destruct H as (Hcur & Hname & _).
  pose proof (sort_by_strongly_sorted StepProgress.step_number
                (filter (in_session session_id) (progress s))) as Hss.
  fold (get_session_progress_pure (progress s) session_id) in Hss.
  destruct (find (has_status StepStatus.IN_PROGRESS)
              (get_session_progress_pure (progress s) session_id)) as [p|] eqn:Ef.
  - destruct (find_some _ _ Ef) as [Hin Hst].
    unfold has_status in Hst. apply StepStatus_eqb_eq in Hst.
    split; [|split].
    + intros _. exists p. split; [exact Hin|]. split; [exact Hst|]. split; [exact Hcur|].
      intros q Hq Hqs. apply (find_sorted_first _ _ _ _ Hss Ef _ Hq).
      unfold has_status. rewrite Hqs. reflexivity.
    + intros Hn. exfalso. apply (Hn p Hin Hst).
    + intros E. rewrite E in Hin. destruct Hin.
  - split; [|split].
    + intros (p & Hp & Hps). exfalso.
      pose proof (find_none _ _ Ef p Hp) as Hf. unfold has_status in Hf.
      rewrite Hps in Hf. discriminate.
    + intros _ Hne. destruct (last_opt_nonempty _ Hne) as [p Hp].
      destruct (last_opt_sorted _ _ _ Hss Hp) as [Hin Hmax].
      exists p. split; [exact Hin|]. split; [rewrite Hcur, Hp; reflexivity|exact Hmax].
    + intros E. rewrite E in Hcur, Hname. simpl in Hcur, Hname. auto.
Qed.

(** ** Witnesses *)

Section Witnesses.
Import Scenario.
Local Open Scope string_scope.

Lemma submit_step_data_accepts_payload_witness :
  filter (row_key "sid" "s1") (progress started) = [initial_progress "sid" 100 s1] /\
  map StepProgress.attempt_count (progress (fst (submit "s1" [("email", "a@b.c")] 110 started)))
    = map StepProgress.attempt_count (progress started).
Proof.
  assert (Hrow : filter (row_key "sid" "s1") (progress started)
                 = [initial_progress "sid" 100 s1]) by (vm_compute; reflexivity).
  split; [exact Hrow|].
  exact (proj1 (proj2 (submit_step_data_accepts_payload
                         (SubmitStepDataRequest.mk "sid" "s1" [("email", "a@b.c")] None)
                         110 started _ Hrow))).
Defined.

Lemma update_analytics_rate_and_status_witness :
  update_analytics_from_progress "sid" [done_row] 110 started
    = (fst (update_analytics_from_progress "sid" [done_row] 110 started),
       Ok (analytics_from_progress started_analytics [done_row] 110)) /\
  0 < Analytics.total_steps (analytics_from_progress started_analytics [done_row] 110) /\
  Analytics.completion_rate (analytics_from_progress started_analytics [done_row] 110) = 33.
Proof.
  assert (Hr : update_analytics_from_progress "sid" [done_row] 110 started
    = (fst (update_analytics_from_progress "sid" [done_row] 110 started),
       Ok (analytics_from_progress started_analytics [done_row] 110)))
    by (vm_compute; reflexivity).
  assert (Ht : 0 < Analytics.total_steps (analytics_from_progress started_analytics [done_row] 110))
    by (vm_compute; reflexivity).
  split; [exact Hr|]. split; [exact Ht|].
  destruct (update_analytics_rate_and_status _ _ _ _ _ _ Hr Ht) as (_ & _ & _ & Hrate & _).
  rewrite Hrate. vm_compute. reflexivity.
Defined.

Lemma update_analytics_average_step_time_witness :
  update_analytics_from_progress "sid" [busy_row] 105 started
    = (fst (update_analytics_from_progress "sid" [busy_row] 105 started),
       Ok (analytics_from_progress started_analytics [busy_row] 105)) /\
  Analytics.average_step_time (analytics_from_progress started_analytics [busy_row] 105) = 0.
Proof.
  assert (Hr : update_analytics_from_progress "sid" [busy_row] 105 started
    = (fst (update_analytics_from_progress "sid" [busy_row] 105 started),
       Ok (analytics_from_progress started_analytics [busy_row] 105)))
    by (vm_compute; reflexivity).
  split; [exact Hr|].
  destruct (update_analytics_average_step_time _ _ _ _ _ _ Hr) as (_ & _ & Havg).
  rewrite Havg. vm_compute. reflexivity.
Defined.

Lemma update_analytics_fastest_slowest_witness :
  filter (fun b => String.eqb (Analytics.session_id b) "sid") (analytics started)
    = [started_analytics] /\
  update_analytics_from_progress "sid" [done_row] 110 started
    = (fst (update_analytics_from_progress "sid" [done_row] 110 started),
       Ok (analytics_from_progress started_analytics [done_row] 110)) /\
  exists p, In p [done_row] /\
    Analytics.fastest_step (analytics_from_progress started_analytics [done_row] 110)
      = Some (StepProgress.step_name p).
Proof.
  assert (Hrow : filter (fun b => String.eqb (Analytics.session_id b) "sid") (analytics started)
                 = [started_analytics]) by (vm_compute; reflexivity).
  assert (Hr : update_analytics_from_progress "sid" [done_row] 110 started
    = (fst (update_analytics_from_progress "sid" [done_row] 110 started),
       Ok (analytics_from_progress started_analytics [done_row] 110)))
    by (vm_compute; reflexivity).
  split; [exact Hrow|]. split; [exact Hr|].
  pose proof (update_analytics_fastest_slowest _ _ _ _ _ _ _ Hrow Hr) as HT.
  cbv zeta in HT. destruct HT as [_ HT].
  destruct HT as (p & q & (Hp & _) & _ & Hf & _).
  - exists done_row. split; [left; reflexivity|]. split; [reflexivity|].
    exists 10. split; [reflexivity|discriminate].
  - exists p. split; [exact Hp|exact Hf].
Defined.

Lemma get_flow_state_without_progress_witness :
  filter (fun b => String.eqb (Analytics.session_id b) "sid") (analytics analytics_only)
    = [started_analytics] /\
  (forall p, In p (progress analytics_only) -> StepProgress.submission_id p <> Some "sid") /\
  exists fs, get_flow_state "sid" analytics_only = (analytics_only, Ok (Some fs)) /\
    FlowState.current_step fs = 1.
Proof.
  assert (Hrow : filter (fun b => String.eqb (Analytics.session_id b) "sid")
                   (analytics analytics_only) = [started_analytics])
    by (vm_compute; reflexivity).
  assert (Hnone : forall p, In p (progress analytics_only) ->
                    StepProgress.submission_id p <> Some "sid")
    by (intros p []).
  split; [exact Hrow|]. split; [exact Hnone|].
  destruct (get_flow_state_without_progress _ _ _ Hrow Hnone) as (fs & Hfs & H1 & _).
  exists fs. auto.
Defined.
Lemma submit_step_data_rate_bounds_monotone_witness :
  submit_step_data (SubmitStepDataRequest.mk "sid" "s1" [("name", "x")] None) 110 retired
    = (after_s1, Ok (SubmitResult.mk true [] None 33 false)) /\
  0 <= SubmitResult.progress_percentage (SubmitResult.mk true [] None 33 false) <= 100.
Proof.
  assert (Htot : forall a, In a (analytics retired) -> Analytics.session_id a = "sid" ->
                   Analytics.total_steps a = 3)
    by (intros a [<-|[]] _; reflexivity).
  assert (Hrows : length_Z (filter (in_session "sid") (progress retired)) <= 3)
    by (apply Z.leb_le; vm_compute; reflexivity).
  assert (Hr : submit_step_data (SubmitStepDataRequest.mk "sid" "s1" [("name", "x")] None)
                 110 retired
               = (after_s1, Ok (SubmitResult.mk true [] None 33 false)))
    by (vm_compute; reflexivity).
  split; [exact Hr|].
  exact (proj1 (submit_step_data_rate_bounds_monotone "sid" 3 retired Htot Hrows retired
                  (SubmitStepDataRequest.mk "sid" "s1" [("name", "x")] None) 110 after_s1
                  (SubmitResult.mk true [] None 33 false) (submits_nil "sid" retired)
                  eq_refl Hr)).
Defined.
End Witnesses.

Section ExtraWitnesses.
Import Scenario.
Local Open Scope string_scope.

Lemma update_step_status_missing_row_witness :
  (forall p, In p (progress started) -> row_key "sid" "zz" p = false) /\
  update_step_status "sid" "zz" StepStatus.COMPLETED ProgressUpdate.empty 120 started
    = (started, Err NotFoundError).
Proof.
  assert (H : forall p, In p (progress started) -> row_key "sid" "zz" p = false)
    by (apply Forall_forall; vm_compute; repeat constructor).
  split; [exact H|]. exact (update_step_status_missing_row _ _ _ _ _ _ H).
Defined.

(** Row [s2] of [started] moved to [in_progress] at 120. *)
Lemma update_step_status_frame_witness :
  update_step_status "sid" "s2" StepStatus.IN_PROGRESS ProgressUpdate.empty 120 started
    = (fst (update_step_status "sid" "s2" StepStatus.IN_PROGRESS ProgressUpdate.empty 120 started),
       Ok (StepProgress.mk (Some "sid") "s2" 2 StepName.BASIC_INFO StepStatus.IN_PROGRESS
             None None None (Some 120) None None 1 None None)) /\
  List.length (progress (fst (update_step_status "sid" "s2" StepStatus.IN_PROGRESS
                                ProgressUpdate.empty 120 started))) = 3%nat.
Proof.
  assert (Hr : update_step_status "sid" "s2" StepStatus.IN_PROGRESS ProgressUpdate.empty 120 started
    = (fst (update_step_status "sid" "s2" StepStatus.IN_PROGRESS ProgressUpdate.empty 120 started),
       Ok (StepProgress.mk (Some "sid") "s2" 2 StepName.BASIC_INFO StepStatus.IN_PROGRESS
             None None None (Some 120) None None 1 None None))) by (vm_compute; reflexivity).
  split; [exact Hr|].
  destruct (update_step_status_frame _ _ _ _ _ _ _ _ Hr) as (_ & _ & Hlen & _).
  rewrite Hlen. reflexivity.
Defined.

Lemma update_step_status_phase_timestamps_witness :
  filter (row_key "sid" "s1") (progress started) = [initial_progress "sid" 100 s1] /\
  update_step_status "sid" "s1" StepStatus.IN_PROGRESS ProgressUpdate.empty 120 started
    = (fst (update_step_status "sid" "s1" StepStatus.IN_PROGRESS ProgressUpdate.empty 120 started),
       Ok (StepProgress.mk (Some "sid") "s1" 1 StepName.SERVICE_SELECTION
             StepStatus.IN_PROGRESS None None None (Some 100) None None 1 None None)) /\
  StepProgress.started_at (StepProgress.mk (Some "sid") "s1" 1 StepName.SERVICE_SELECTION
             StepStatus.IN_PROGRESS None None None (Some 100) None None 1 None None)
    = Some 100.
Proof.
  assert (Hrow : filter (row_key "sid" "s1") (progress started)
                 = [initial_progress "sid" 100 s1]) by (vm_compute; reflexivity).
  assert (Hr : update_step_status "sid" "s1" StepStatus.IN_PROGRESS ProgressUpdate.empty 120 started
    = (fst (update_step_status "sid" "s1" StepStatus.IN_PROGRESS ProgressUpdate.empty 120 started),
       Ok (StepProgress.mk (Some "sid") "s1" 1 StepName.SERVICE_SELECTION
             StepStatus.IN_PROGRESS None None None (Some 100) None None 1 None None)))
    by (vm_compute; reflexivity).
  split; [exact Hrow|]. split; [exact Hr|].
  destruct (update_step_status_phase_timestamps _ _ _ _ _ _ _ _ _ Hrow Hr) as (H & _).
  exact (H eq_refl eq_refl).
Defined.
Lemma update_analytics_missing_row_witness :
  update_analytics_from_progress "sid" [done_row] 110 three_steps
    = (three_steps, Err NotFoundError).
Proof.
  assert (H : forall a, In a (analytics three_steps) -> Analytics.session_id a <> "sid")
    by (intros a []).
  exact (update_analytics_missing_row _ _ _ _ H).
Defined.

Lemma update_analytics_counters_witness :
  update_analytics_from_progress "sid" [done_row] 110 started
    = (fst (update_analytics_from_progress "sid" [done_row] 110 started),
       Ok (analytics_from_progress started_analytics [done_row] 110)) /\
  Analytics.error_count (analytics_from_progress started_analytics [done_row] 110) = 0.
Proof.
  assert (Hr : update_analytics_from_progress "sid" [done_row] 110 started
    = (fst (update_analytics_from_progress "sid" [done_row] 110 started),
       Ok (analytics_from_progress started_analytics [done_row] 110)))
    by (vm_compute; reflexivity).
  split; [exact Hr|].
  destruct (update_analytics_counters _ _ _ _ _ _ Hr) as (_ & _ & _ & _ & He & _).
  rewrite He. reflexivity.
Defined.

Lemma update_analytics_completion_rate_bounds_witness :
  length_Z [done_row] <= Analytics.total_steps
    (analytics_from_progress started_analytics [done_row] 110) /\
  Analytics.completion_rate (analytics_from_progress started_analytics [done_row] 110) <= 100.
Proof.
  assert (Hr : update_analytics_from_progress "sid" [done_row] 110 started
    = (fst (update_analytics_from_progress "sid" [done_row] 110 started),
       Ok (analytics_from_progress started_analytics [done_row] 110)))
    by (vm_compute; reflexivity).
  assert (Hle : length_Z [done_row] <= Analytics.total_steps
                  (analytics_from_progress started_analytics [done_row] 110))
    by (vm_compute; discriminate).
  split; [exact Hle|].
  apply (update_analytics_completion_rate_bounds _ _ _ _ _ _ Hr Hle).
Defined.

Lemma submit_step_data_missing_row_witness :
  submit_step_data (SubmitStepDataRequest.mk "sid" "zz" [] None) 110 started
    = (started, Err NotFoundError).
Proof.
  assert (H : forall p, In p (progress started) -> row_key "sid" "zz" p = false)
    by (apply Forall_forall; vm_compute; repeat constructor).
  exact (proj1 (submit_step_data_missing_row
                  (SubmitStepDataRequest.mk "sid" "zz" [] None) 110 started H)).
Defined.

Lemma submit_step_data_success_witness :
  submit_step_data (SubmitStepDataRequest.mk "sid" "s1" [("name", "x")] None) 110 retired
    = (after_s1, Ok (SubmitResult.mk true [] None 33 false)) /\
  get_step_by_id (steps retired) "s1" = None.
Proof.
  assert (Hr : submit_step_data (SubmitStepDataRequest.mk "sid" "s1" [("name", "x")] None)
                 110 retired
               = (after_s1, Ok (SubmitResult.mk true [] None 33 false)))
    by (vm_compute; reflexivity).
  split; [exact Hr|].
  exact (proj1 (submit_step_data_success _ _ _ _ _ Hr)).
Defined.

(** A recomputation that changes [completed_steps] moves [updated_at] to
    [now]; one over no records changes no column and keeps it. *)
Lemma update_analytics_updated_at_witness :
  Analytics.updated_at (analytics_from_progress started_analytics [done_row] 110) = 110 /\
  analytics_from_progress started_analytics [] 110 = started_analytics.
Proof.
  assert (Hr1 : update_analytics_from_progress "sid" [done_row] 110 started
    = (fst (update_analytics_from_progress "sid" [done_row] 110 started),
       Ok (analytics_from_progress started_analytics [done_row] 110)))
    by (vm_compute; reflexivity).
  assert (Hr2 : update_analytics_from_progress "sid" [] 110 started
    = (fst (update_analytics_from_progress "sid" [] 110 started),
       Ok (analytics_from_progress started_analytics [] 110)))
    by (vm_compute; reflexivity).
  split.
  - destruct (update_analytics_updated_at _ _ _ _ _ _ Hr1) as (a0 & Hin & _ & _ & _ & Hch).
    destruct Hin as [<-|[]]. apply Hch. vm_compute. discriminate.
  - destruct (update_analytics_updated_at _ _ _ _ _ _ Hr2) as (a0 & Hin & _ & _ & Hsame & _).
    destruct Hin as [<-|[]]. apply Hsame. vm_compute. reflexivity.
Defined.

Lemma submit_step_data_catalog_step_fails_witness :
  filter (row_key "sid" "s1") (progress started) = [initial_progress "sid" 100 s1] /\
  snd (submit "s1" [("name", "x")] 110 started) = Err ProgrammingError.
Proof.
  assert (Hrow : filter (row_key "sid" "s1") (progress started)
                 = [initial_progress "sid" 100 s1]) by (vm_compute; reflexivity).
  assert (Hcat : get_step_by_id (steps started) "s1" = Some s1) by reflexivity.
  split; [exact Hrow|].
  exact (proj1 (submit_step_data_catalog_step_fails
                  (SubmitStepDataRequest.mk "sid" "s1" [("name", "x")] None)
                  110 started _ _ Hrow Hcat)).
Defined.

Lemma get_flow_state_after_s1 :
  snd (get_flow_state "sid" after_s1)
    = Ok (Some (FlowState.mk "sid" 3 StepName.REVIEW ["s1"] [("name", "x")]
                  ServiceType.LANDING_PAGE false 100 110)).
Proof. vm_compute. reflexivity. Qed.

Lemma get_flow_state_form_data_witness :
  dict_get (FlowState.form_data (FlowState.mk "sid" 3 StepName.REVIEW ["s1"] [("name", "x")]
                                   ServiceType.LANDING_PAGE false 100 110)) "name"
    = Some "x".
Proof.
  assert (Hkeys : forall p d, In p (progress after_s1) -> StepProgress.step_data p = Some d ->
                    NoDup (map fst d)).
  { intros p d Hp Hd. vm_compute in Hp.
    destruct Hp as [<-|[<-|[<-|[]]]]; vm_compute in Hd; try discriminate.
    injection Hd as <-. repeat constructor. intros []. }
  rewrite (get_flow_state_form_data _ _ _ "name" get_flow_state_after_s1 Hkeys).
  vm_compute. reflexivity.
Defined.

(** After [s1] no row of the session is [in_progress]: the current step is
    the highest-numbered row's. *)
Lemma get_flow_state_current_step_witness :
  exists p, In p (get_session_progress_pure (progress after_s1) "sid") /\
    StepProgress.step_number p = 3.
Proof.
  assert (Hnone : forall p, In p (get_session_progress_pure (progress after_s1) "sid") ->
                    StepProgress.status p <> StepStatus.IN_PROGRESS).
  { intros p Hp. vm_compute in Hp.
    destruct Hp as [<-|[<-|[<-|[]]]]; discriminate. }
  assert (Hne : get_session_progress_pure (progress after_s1) "sid" <> [])
    by (vm_compute; discriminate).
  destruct (get_flow_state_current_step _ _ _ get_flow_state_after_s1) as (_ & H & _).
  destruct (H Hnone Hne) as (p & Hp & Hc & _).
  exists p. split; [exact Hp|]. simpl in Hc. auto.
Defined.
End ExtraWitnesses.
